(** * Farg'ona Jobs bot: submission wizard, moderation and retention

    A shallow embedding of the bot's data layer ([database.py]), its
    handlers ([main.py], [admin.py]) and its rate limiter ([utils.py]),
    followed by the properties of the moderation workflow that were
    checked against it. *)

From Stdlib Require Import ZArith String Ascii List Lia.
From stdpp Require Import base option list gmap.

Open Scope Z_scope.

(** ** Python values *)

(** A Python [str] is a sequence of Unicode code points and [len] counts
    them; a code point is kept as its number. *)
Abbreviation pystr := (list N).

(** An ASCII literal of the source, one code point per character. *)
Definition py (s : string) : pystr := N_of_ascii <$> list_ascii_of_string s.

(** [len(s)] as a Python integer. *)
Definition len {A} (l : list A) : Z := Z.of_nat (length l).

(** [str.isspace] on one code point (the characters CPython's
    [Py_UNICODE_ISSPACE] accepts). *)
Definition isspace (c : N) : bool :=
  ((9 <=? c) && (c <=? 13) || (28 <=? c) && (c <=? 32) ||
   (c =? 133) || (c =? 160) || (c =? 5760) ||
   (8192 <=? c) && (c <=? 8202) || (c =? 8232) || (c =? 8233) ||
   (c =? 8239) || (c =? 8287) || (c =? 12288))%N.

Fixpoint lstrip (s : pystr) : pystr :=
  match s with
  | c :: s' => if isspace c then lstrip s' else s
  | [] => []
  end.

(** [s.strip()]: leading and trailing whitespace removed. *)
Definition strip (s : pystr) : pystr := rev (lstrip (rev (lstrip s))).

(** A naive [datetime] in UTC, as microseconds since the epoch (the
    resolution of Python's [datetime]); a [timedelta] is a difference of
    two of them. *)
Abbreviation datetime := Z (only parsing).

Definition timedelta_seconds (s : Z) : Z := s * 1000000.
Definition timedelta_days (d : Z) : Z := d * 86400 * 1000000.

(** [dt.date()] and SQL [date(dt)]: the UTC calendar day, as a day
    number. *)
Definition date (dt : datetime) : Z := dt / timedelta_days 1.

(** ** utils.py: RateLimiter *)

Module RateLimiter.

(** [self.user_actions]: user_id -> [timestamps]. *)
Record t := { user_actions : gmap Z (list Z) }.

Definition init : t := {| user_actions := ∅ |}.

(** [self.user_actions[user_id]] once the key has been created. *)
Definition actions_of (self : t) (user_id : Z) : list Z :=
  default [] (user_actions self !! user_id).

(** The timestamps the list comprehension keeps. *)
Definition recent (cutoff_time : datetime) (l : list Z) : list Z :=
  filter (fun timestamp => cutoff_time < timestamp) l.

Definition is_rate_limited (now : datetime) (user_id : Z)
    (max_actions time_window : Z) (self : t) : bool * t :=
  let cutoff_time := now - timedelta_seconds time_window in
  let kept := recent cutoff_time (actions_of self user_id) in
  if bool_decide (max_actions <= len kept) then
    (true, {| user_actions := <[user_id := kept]> (user_actions self) |})
  else
    (false,
     {| user_actions := <[user_id := kept ++ [now]]> (user_actions self) |}).

Definition clear_user_actions (user_id : Z) (self : t) : t :=
  {| user_actions := delete user_id (user_actions self) |}.

(** Successive checks of one user with the default arguments of the
    source, [max_actions = 10] and [time_window = 60], at the given
    clock readings. *)
Fixpoint checks (user_id : Z) (times : list Z) (self : t)
    : list bool * t :=
  match times with
  | [] => ([], self)
  | now :: rest =>
      let '(r, self1) := is_rate_limited now user_id 10 60 self in
      let '(rs, self2) := checks user_id rest self1 in
      (r :: rs, self2)
  end.

End RateLimiter.

(** ** utils.py: BotUtils *)

Module BotUtils.

(** [s[:stop]]: a negative [stop] counts from the end. *)
Definition slice_to {A} (s : list A) (stop : Z) : list A :=
  if bool_decide (0 <= stop) then take (Z.to_nat stop) s
  else take (Z.to_nat (len s + stop)) s.

Definition truncate_text (text : pystr) (max_length : Z) : pystr :=
  if bool_decide (len text <= max_length) then text
  else slice_to text (max_length - 3) ++ py "...".

(** [s.replace(old, new)] for a one-character [old]. *)
Definition replace_char (old : N) (new : pystr) (s : pystr) : pystr :=
  s ≫= (fun c => if (c =? old)%N then new else [c]).

Definition escape_html (text : pystr) : pystr :=
  replace_char 62 (py "&gt;")
    (replace_char 60 (py "&lt;")
       (replace_char 38 (py "&amp;") text)).

(** The character class [[a-zA-Z0-9_]]. *)
Definition is_word (c : N) : bool :=
  ((97 <=? c) && (c <=? 122) || (65 <=? c) && (c <=? 90) ||
   (48 <=? c) && (c <=? 57) || (c =? 95))%N.

(** A match of [[a-zA-Z0-9_]{5,32}$] over the whole of [s]: [$] stands
    for the end of the string, or for the place before a newline that
    ends the string. *)
Definition word_5_32 (s : pystr) : bool :=
  forallb is_word s && bool_decide (5 <= len s) && bool_decide (len s <= 32).

Definition validate_username (username : pystr) : bool :=
  match username with
  | first :: rest =>
      (first =? 64)%N &&
      (word_5_32 rest ||
       match rev rest with
       | last :: body => (last =? 10)%N && word_5_32 (rev body)
       | [] => false
       end)
  | [] => false
  end.

(** [s.split()]: the maximal runs of characters that are not whitespace;
    [word] is the run being read, last character first. *)
Fixpoint split_from (word : pystr) (s : pystr) : list pystr :=
  match s with
  | [] => if word is [] then [] else [rev word]
  | c :: s' =>
      if isspace c then
        (if word is [] then split_from [] s' else rev word :: split_from [] s')
      else split_from (c :: word) s'
  end.

Definition split (s : pystr) : list pystr := split_from [] s.

(** [sep.join(words)] *)
Fixpoint join (sep : pystr) (words : list pystr) : pystr :=
  match words with
  | [] => []
  | [w] => w
  | w :: rest => w ++ sep ++ join sep rest
  end.

Definition clean_text (text : pystr) : pystr :=
  let text1 := join (py " ") (split text) in
  let text2 := replace_char 8238 [] text1 in     (* U+202E *)
  let text3 := replace_char 8203 [] text2 in     (* U+200B *)
  strip text3.

End BotUtils.

(** ** database.py: the relational store *)

Module Database.

(** A row of [users]; the table is keyed by the unique [telegram_id]
    that every query of the source selects on. *)
Record User := mkUser {
  id : Z;
  full_name : pystr;
  role : pystr;                 (* user, admin, superadmin *)
  user_created_at : datetime;
  is_blocked : bool
}.

(** A row of [ads]; the table is keyed by the primary key [Ad.id]. *)
Record Ad := mkAd {
  user_id : Z;
  title : pystr;
  description : pystr;
  category : pystr;
  contact : pystr;
  status : pystr;               (* pending, approved, rejected *)
  created_at : datetime;
  expires_at : datetime;
  approved_by : option Z;
  approved_at : option Z
}.

Record Db := mkDb {
  users : gmap Z User;          (* telegram_id -> row *)
  ads : gmap Z Ad;              (* id -> row *)
  next_user_id : Z;             (* the autoincrement sequences *)
  next_ad_id : Z;
  settings : gmap (list N) pystr
}.

Definition with_users (us : gmap Z User) (d : Db) : Db :=
  mkDb us (ads d) (next_user_id d) (next_ad_id d) (settings d).
Definition with_ads (a : gmap Z Ad) (d : Db) : Db :=
  mkDb (users d) a (next_user_id d) (next_ad_id d) (settings d).

Definition set_role (r : pystr) (u : User) : User :=
  mkUser (id u) (full_name u) r (user_created_at u) (is_blocked u).
Definition set_blocked (u : User) : User :=
  mkUser (id u) (full_name u) (role u) (user_created_at u) true.

Definition set_status (s : pystr) (a : Ad) : Ad :=
  mkAd (user_id a) (title a) (description a) (category a) (contact a) s
       (created_at a) (expires_at a) (approved_by a) (approved_at a).
Definition set_approval (by_ : option Z) (at_ : datetime) (a : Ad) : Ad :=
  mkAd (user_id a) (title a) (description a) (category a) (contact a)
       (status a) (created_at a) (expires_at a) by_ (Some at_).
Definition set_title (s : pystr) (a : Ad) : Ad :=
  mkAd (user_id a) s (description a) (category a) (contact a) (status a)
       (created_at a) (expires_at a) (approved_by a) (approved_at a).
Definition set_description (s : pystr) (a : Ad) : Ad :=
  mkAd (user_id a) (title a) s (category a) (contact a) (status a)
       (created_at a) (expires_at a) (approved_by a) (approved_at a).
Definition set_contact (s : pystr) (a : Ad) : Ad :=
  mkAd (user_id a) (title a) (description a) (category a) s (status a)
       (created_at a) (expires_at a) (approved_by a) (approved_at a).

(** Python truthiness of an optional integer and of an optional string. *)
Definition truthy_int (o : option Z) : bool :=
  match o with Some z => negb (z =? 0) | None => false end.
Definition truthy_str (o : option pystr) : bool :=
  match o with Some (_ :: _) => true | _ => false end.

(** [if value: ad.field = value] for an optional keyword argument. *)
Definition assign_if (set : pystr -> Ad -> Ad) (value : option pystr)
    (a : Ad) : Ad :=
  match value with
  | Some v => if truthy_str value then set v a else a
  | None => a
  end.

(** [SUPERADMIN_ID] of [create_default_superadmin]. *)
Definition SUPERADMIN_ID : Z := 123456789.

Definition insert_user (now : datetime) (telegram_id : Z)
    (name r : pystr) (d : Db) : Db :=
  mkDb (<[telegram_id := mkUser (next_user_id d) name r now false]> (users d))
       (ads d) (next_user_id d + 1) (next_ad_id d) (settings d).

Definition create_default_superadmin (now : datetime) (d : Db) : Db :=
  match users d !! SUPERADMIN_ID with
  | Some _ => d
  | None => insert_user now SUPERADMIN_ID (py "SuperAdmin") (py "superadmin") d
  end.

(** An empty schema followed by [create_default_superadmin]. *)
Definition init_db (now : datetime) : Db :=
  create_default_superadmin now (mkDb ∅ ∅ 1 1 ∅).

(** [create_user]: the unique constraint on [telegram_id] rejects a
    second row ([None]). *)
Definition create_user (now : datetime) (telegram_id : Z)
    (name r : pystr) (d : Db) : option Db :=
  match users d !! telegram_id with
  | Some _ => None
  | None => Some (insert_user now telegram_id name r d)
  end.

Definition get_user (telegram_id : Z) (d : Db) : option User :=
  users d !! telegram_id.

Definition update_user_role (telegram_id : Z) (r : pystr) (d : Db)
    : bool * Db :=
  match users d !! telegram_id with
  | Some user => (true, with_users (<[telegram_id := set_role r user]> (users d)) d)
  | None => (false, d)
  end.

Definition get_admins (d : Db) : list (Z * User) :=
  map_to_list
    (filter (fun kv => role kv.2 ∈ [py "admin"; py "superadmin"]) (users d)).

Definition block_user (telegram_id : Z) (d : Db) : bool * Db :=
  match users d !! telegram_id with
  | Some user => (true, with_users (<[telegram_id := set_blocked user]> (users d)) d)
  | None => (false, d)
  end.

(** [create_ad]; [created_at] and [expires_at] take their column
    defaults, read off one clock value. *)
Definition create_ad (now : datetime) (uid : Z)
    (title_ description_ category_ contact_ status_ : pystr) (d : Db)
    : Z * Db :=
  let ad := mkAd uid title_ description_ category_ contact_ status_
                 now (now + timedelta_days 7) None None in
  (next_ad_id d,
   mkDb (users d) (<[next_ad_id d := ad]> (ads d)) (next_user_id d)
        (next_ad_id d + 1) (settings d)).

Definition get_ad (ad_id : Z) (d : Db) : option Ad := ads d !! ad_id.

Definition update_ad_status (now : datetime) (ad_id : Z) (status_ : pystr)
    (approved_by_ : option Z) (d : Db) : bool * Db :=
  match ads d !! ad_id with
  | Some ad =>
      let ad1 := set_status status_ ad in
      let ad2 :=
        if bool_decide (status_ = py "approved") && truthy_int approved_by_
        then set_approval approved_by_ now ad1
        else ad1 in
      (true, with_ads (<[ad_id := ad2]> (ads d)) d)
  | None => (false, d)
  end.

Definition update_ad (ad_id : Z) (title_ description_ contact_ : option pystr)
    (d : Db) : bool * Db :=
  match ads d !! ad_id with
  | Some ad =>
      let ad1 := assign_if set_title title_ ad in
      let ad2 := assign_if set_description description_ ad1 in
      let ad3 := assign_if set_contact contact_ ad2 in
      (true, with_ads (<[ad_id := ad3]> (ads d)) d)
  | None => (false, d)
  end.

Definition delete_ad (ad_id : Z) (d : Db) : bool * Db :=
  match ads d !! ad_id with
  | Some _ => (true, with_ads (delete ad_id (ads d)) d)
  | None => (false, d)
  end.

Definition get_user_ads_today (now : datetime) (telegram_id : Z) (d : Db)
    : list (Z * Ad) :=
  let today := date now in
  map_to_list
    (filter (fun kv => user_id kv.2 = telegram_id /\
                       date (created_at kv.2) = today) (ads d)).

(** The rows the sweep selects: [Ad.expires_at < week_ago]. *)
Definition old_ads (now : datetime) (d : Db) : gmap Z Ad :=
  let week_ago := now - timedelta_days 7 in
  filter (fun kv => expires_at kv.2 < week_ago) (ads d).

Definition cleanup_old_ads (now : datetime) (d : Db) : Z * Db :=
  let old := old_ads now d in
  (Z.of_nat (size old), with_ads (ads d ∖ old) d).

Definition get_setting (key : pystr) (d : Db) : option pystr :=
  settings d !! key.

Definition set_setting (key value : pystr) (d : Db) : Db :=
  mkDb (users d) (ads d) (next_user_id d) (next_ad_id d)
       (<[key := value]> (settings d)).

End Database.

(** ** database.py: per-user statistics *)

Module Statistics.
Import Database.

(** [select(func.count(Ad.id)).where(...)] *)
Definition count_ads (P : Z * Ad -> Prop) `{!forall kv, Decision (P kv)}
    (d : Db) : Z :=
  Z.of_nat (size (filter P (ads d))).

(** The dictionary [get_user_stats] returns. *)
Record UserStats := mkUserStats {
  total_ads : Z;
  approved_ads : Z;
  pending_ads : Z;
  rejected_ads : Z
}.

Definition get_user_stats (telegram_id : Z) (d : Db) : UserStats :=
  mkUserStats
    (count_ads (fun kv => user_id kv.2 = telegram_id) d)
    (count_ads (fun kv => user_id kv.2 = telegram_id /\
                          status kv.2 = py "approved") d)
    (count_ads (fun kv => user_id kv.2 = telegram_id /\
                          status kv.2 = py "pending") d)
    (count_ads (fun kv => user_id kv.2 = telegram_id /\
                          status kv.2 = py "rejected") d).

End Statistics.


(** ** The bot: conversation state, outgoing calls and handlers *)

Module Bot.
Import Database.

(** The states of [AdCreation] and [AdminStates]. *)
Inductive State :=
| waiting_for_title
| waiting_for_description
| waiting_for_contact
| waiting_for_category
| waiting_for_new_admin_id
| waiting_for_edit_title
| waiting_for_edit_description
| waiting_for_edit_contact
| waiting_for_broadcast_message.

#[global] Instance State_eq_dec : EqDecision State.
Proof. solve_decision. Defined.

(** The FSM data dictionary, one optional entry per key the handlers
    write. *)
Record Data := mkData {
  d_title : option pystr;
  d_description : option pystr;
  d_contact : option pystr;
  d_edit_ad_id : option Z;
  d_broadcast_text : option pystr;
  d_users : option (list (Z * User))
}.

Definition no_data : Data := mkData None None None None None None.

(** What an [FSMContext] holds for one user. *)
Record Context := mkContext { state : option State; data : Data }.

Definition idle : Context := mkContext None no_data.

(** The persisted store and the in-memory FSM storage. *)
Record World := mkWorld { db : Db; storage : gmap Z Context }.

Definition context_of (w : World) (uid : Z) : Context :=
  default idle (storage w !! uid).

(** Reply keyboards and inline keyboards attached to outgoing messages. *)
Inductive Markup :=
| main_keyboard
| admin_keyboard
| superadmin_keyboard
| categories_keyboard
| ad_action_keyboard (ad_id : Z)
| admin_list_keyboard (removable : list (Z * User))
| back_to_admin_management_keyboard
| confirm_broadcast_keyboard
| confirm_delete_keyboard (ad_id : Z).

(** The message texts of the source, one constructor per template with
    the values interpolated into it. *)
Inductive Text :=
| welcome_text (name : pystr)
| daily_limit_text
| ask_title_text
| title_bounds_text
| ask_description_text
| description_bounds_text
| ask_contact_text
| contact_bounds_text
| ask_category_text
| ad_created_text (title_ category_ : pystr)
| new_ad_text (owner_name : pystr) (ad : Ad)
| no_rights_text                      (* Sizda huquq yo'q! *)
| ad_not_found_text                   (* E'lon topilmadi! *)
| approved_admin_text (title_ : pystr)
| approved_owner_text (title_ : pystr)
| channel_text (ad : Ad)
| rejected_admin_text (title_ : pystr)
| rejected_owner_text (title_ : pystr)
| ask_new_admin_id_text
| bad_number_text
| no_user_with_id_text
| already_admin_text
| admin_added_text (name : pystr) (admin_id : Z)
| promoted_text
| failure_text                        (* Xatolik yuz berdi! *)
| no_admins_text
| admin_list_text (admins : list (Z * User))
| user_not_found_text                 (* Foydalanuvchi topilmadi! *)
| superadmin_not_removable_text
| admin_removed_text (name : pystr)
| demoted_text
| ask_broadcast_text
| no_users_text
| confirm_broadcast_text (body : pystr) (n : Z)
| broadcast_sending_text (n : Z)
| broadcast_text (body : option pystr)
| broadcast_done_text (success_count failed_count : Z)
| broadcast_cancelled_text
| ask_new_title_text (current : pystr)
| edit_title_bounds_text
| title_updated_text (new_title : pystr)
| edited_owner_text (new_title : pystr)
| confirm_delete_text (title_ : pystr)
| deleted_admin_text (title_ : pystr)
| deleted_owner_text (title_ : pystr).

(** Where [bot.send_message] sends: a user's chat or [CHANNEL_ID]. *)
Inductive Recipient := Chat (telegram_id : Z) | Channel.

Inductive LogLine :=
| failed_to_notify_admin (telegram_id : Z) (e : pystr)
| failed_to_post_to_channel (e : pystr)
| broadcast_error (telegram_id : Z) (e : pystr)
| old_ads_cleaned_up.

(** The calls a handler makes on the transport, the logger (or [print],
    in the broadcast) and the clock, in the order it makes them. *)
Inductive Effect :=
| message_answer (chat : Z) (text : Text) (reply_markup : option Markup)
| callback_answer (user : Z) (text : Text) (show_alert : bool)
| edit_text (user : Z) (text : Text) (reply_markup : option Markup)
| send_message (to : Recipient) (text : Text) (reply_markup : option Markup)
| log (line : LogLine)
| sleep (microseconds : Z).

Inductive Exn :=
| KeyError (key : string)
| IndexError
| AttributeError (attribute : string)
| TelegramError (message : pystr).

(** [str(e)] *)
Definition str_of (e : Exn) : pystr :=
  match e with
  | KeyError k => py k
  | IndexError => py "list index out of range"
  | AttributeError a => py a
  | TelegramError m => m
  end.

Inductive Outcome (A : Type) := Returned (a : A) | Raised (e : Exn).
Arguments Returned {A} a.
Arguments Raised {A} e.

(** A coroutine of the bot: it runs on the world, returns or raises,
    and leaves the world it reached and the calls it made. *)
Definition Handler (A : Type) : Type :=
  World -> Outcome A * World * list Effect.

#[global] Instance Handler_ret : MRet Handler :=
  fun A a w => (Returned a, w, []).

#[global] Instance Handler_bind : MBind Handler :=
  fun A B f m w =>
    match m w with
    | (Returned a, w1, o1) =>
        match f a w1 with (r, w2, o2) => (r, w2, o1 ++ o2) end
    | (Raised e, w1, o1) => (Raised e, w1, o1)
    end.

Definition raise {A} (e : Exn) : Handler A := fun w => (Raised e, w, []).

Definition emit (e : Effect) : Handler unit := fun w => (Returned tt, w, [e]).

(** [try: body except Exception as e: handler(e)] *)
Definition try_except {A} (body : Handler A) (handler : Exn -> Handler A)
    : Handler A :=
  fun w =>
    match body w with
    | (Returned a, w1, o1) => (Returned a, w1, o1)
    | (Raised e, w1, o1) =>
        match handler e w1 with (r, w2, o2) => (r, w2, o1 ++ o2) end
    end.

(** The calls [o], followed by the run [r]. *)
Definition after {A} (o : list Effect) (r : Outcome A * World * list Effect)
    : Outcome A * World * list Effect :=
  (r.1.1, r.1.2, o ++ r.2).

(** One call of a [Database] method: a transaction on the store. *)
Definition query {A} (f : Db -> A) : Handler A :=
  fun w => (Returned (f (db w)), w, []).

Definition execute {A} (f : Db -> A * Db) : Handler A :=
  fun w => let '(a, d) := f (db w) in (Returned a, mkWorld d (storage w), []).

(** [FSMContext] methods of the user [uid]. *)
Definition get_data (uid : Z) : Handler Data :=
  fun w => (Returned (data (context_of w uid)), w, []).

Definition put_context (uid : Z) (c : Context) : Handler unit :=
  fun w => (Returned tt, mkWorld (db w) (<[uid := c]> (storage w)), []).

Definition set_state (uid : Z) (s : State) : Handler unit :=
  fun w => put_context uid (mkContext (Some s) (data (context_of w uid))) w.

Definition update_data (uid : Z) (f : Data -> Data) : Handler unit :=
  fun w =>
    put_context uid
      (mkContext (state (context_of w uid)) (f (data (context_of w uid)))) w.

Definition clear (uid : Z) : Handler unit := put_context uid idle.

Definition pass : Handler unit := mret tt.

(** [l[i]] on a Python list: negative indices count from the end. *)
Definition getitem {A} (l : list A) (i : Z) : option A :=
  if bool_decide (0 <= i) then l !! Z.to_nat i
  else if bool_decide (- len l <= i) then l !! Z.to_nat (len l + i)
  else None.

(** [needle in haystack] on strings. *)
Fixpoint contains (needle haystack : pystr) : bool :=
  match haystack with
  | [] => bool_decide (needle = [])
  | _ :: rest =>
      bool_decide (needle `prefix_of` haystack) || contains needle rest
  end.

(** [CATEGORIES] of main.py. *)
Definition CATEGORIES : list pystr :=
  [ 128188%N :: py " Ofis ishi"; 127959%N :: py " Qurilish";
    127869%N :: py " Restoran/Kafe"; 128663%N :: py " Haydovchi";
    127973%N :: py " Tibbiyot"; 128187%N :: py " IT";
    128218%N :: py " Ta'lim"; 128295%N :: py " Xizmat" ].

Section Handlers.

(** The transport: [deliver r t] is [None] when [bot.send_message] to
    [r] returns, and [Some m] when it raises an exception [e] with
    [str(e) = m].  Replies to the actor ([message.answer],
    [callback.answer], [edit_text]) are taken to return. *)
Variable deliver : Recipient -> Text -> option pystr.

(** [str.lower] of the Python runtime. *)
Variable lower : pystr -> pystr.

Definition bot_send_message (to : Recipient) (t : Text)
    (reply_markup : option Markup) : Handler unit :=
  emit (send_message to t reply_markup);;
  match deliver to t with
  | Some m => raise (TelegramError m)
  | None => mret tt
  end.

(** *** main.py *)

Definition is_admin_role (user : option User) : bool :=
  match user with
  | Some u => bool_decide (role u ∈ [py "admin"; py "superadmin"])
  | None => false
  end.

Definition get_user_keyboard (uid : Z) : Handler Markup :=
  user ← query (get_user uid);
  mret (match user with
        | Some u =>
            if bool_decide (role u = py "superadmin") then superadmin_keyboard
            else if bool_decide (role u = py "admin") then admin_keyboard
            else main_keyboard
        | None => main_keyboard
        end).

(** [name] is [message.from_user.full_name or "No name"]. *)
Definition start_handler (now : datetime) (uid : Z) (name : pystr)
    : Handler unit :=
  user ← query (get_user uid);
  (match user with
   | Some _ => pass
   | None =>
       execute (fun d =>
         (tt, default d
                (create_user now uid (if name is [] then py "No name" else name)
                             (py "user") d)))
   end);;
  keyboard ← get_user_keyboard uid;
  emit (message_answer uid (welcome_text name) (Some keyboard)).

Definition create_ad_handler (now : datetime) (uid : Z) : Handler unit :=
  user ← query (get_user uid);
  today_ads ← query (get_user_ads_today now uid);
  if bool_decide (len today_ads >= 3) then
    emit (message_answer uid daily_limit_text None)
  else
    set_state uid waiting_for_title;;
    emit (message_answer uid ask_title_text None).

Definition process_title (uid : Z) (text : pystr) : Handler unit :=
  if bool_decide (len text < 5) || bool_decide (len text > 100) then
    emit (message_answer uid title_bounds_text None)
  else
    update_data uid (fun d =>
      mkData (Some text) (d_description d) (d_contact d) (d_edit_ad_id d)
             (d_broadcast_text d) (d_users d));;
    set_state uid waiting_for_description;;
    emit (message_answer uid ask_description_text None).

Definition process_description (uid : Z) (text : pystr) : Handler unit :=
  if bool_decide (len text < 10) || bool_decide (len text > 1000) then
    emit (message_answer uid description_bounds_text None)
  else
    update_data uid (fun d =>
      mkData (d_title d) (Some text) (d_contact d) (d_edit_ad_id d)
             (d_broadcast_text d) (d_users d));;
    set_state uid waiting_for_contact;;
    emit (message_answer uid ask_contact_text None).

Definition process_contact (uid : Z) (text : pystr) : Handler unit :=
  if bool_decide (len text < 5) || bool_decide (len text > 50) then
    emit (message_answer uid contact_bounds_text None)
  else
    update_data uid (fun d =>
      mkData (d_title d) (d_description d) (Some text) (d_edit_ad_id d)
             (d_broadcast_text d) (d_users d));;
    set_state uid waiting_for_category;;
    emit (message_answer uid ask_category_text (Some categories_keyboard)).

(** [data[key]] *)
Definition subscript {A} (key : string) (v : option A) : Handler A :=
  match v with Some a => mret a | None => raise (KeyError key) end.

Definition notify_admins_about_new_ad (ad_id : Z) : Handler unit :=
  ad ← query (get_ad ad_id);
  match ad with
  | None => pass
  | Some ad =>
      user ← query (get_user (user_id ad));
      admins ← query get_admins;
      owner_name ← match user with
                   | Some u => mret (full_name u)
                   | None => raise (AttributeError "full_name")
                   end;
      foldr (fun admin (rest : Handler unit) =>
               try_except
                 (bot_send_message (Chat admin.1) (new_ad_text owner_name ad)
                                   (Some (ad_action_keyboard ad_id)))
                 (fun e => emit (log (failed_to_notify_admin admin.1 (str_of e))));;
               rest)
            pass admins
  end.

Definition process_category (now : datetime) (uid : Z) (category_index : Z)
    : Handler unit :=
  category_ ← match getitem CATEGORIES category_index with
              | Some c => mret c
              | None => raise IndexError
              end;
  d ← get_data uid;
  title_ ← subscript "title" (d_title d);
  description_ ← subscript "description" (d_description d);
  contact_ ← subscript "contact" (d_contact d);
  ad_id ← execute (create_ad now uid title_ description_ category_ contact_
                             (py "pending"));
  clear uid;;
  emit (edit_text uid (ad_created_text title_ category_) None);;
  notify_admins_about_new_ad ad_id.

Definition post_ad_to_channel (ad : Ad) : Handler unit :=
  user ← query (get_user (user_id ad));
  try_except (bot_send_message Channel (channel_text ad) None)
             (fun e => emit (log (failed_to_post_to_channel (str_of e)))).

Definition approve_ad_callback (now : datetime) (uid : Z) (ad_id : Z)
    : Handler unit :=
  user ← query (get_user uid);
  if negb (is_admin_role user) then
    emit (callback_answer uid no_rights_text true)
  else
    ad ← query (get_ad ad_id);
    match ad with
    | None => emit (callback_answer uid ad_not_found_text true)
    | Some ad =>
        execute (update_ad_status now ad_id (py "approved") None);;
        post_ad_to_channel ad;;
        emit (edit_text uid (approved_admin_text (title ad)) None);;
        try_except
          (bot_send_message (Chat (user_id ad)) (approved_owner_text (title ad)) None)
          (fun _ => pass)
    end.

Definition reject_ad_callback (now : datetime) (uid : Z) (ad_id : Z)
    : Handler unit :=
  user ← query (get_user uid);
  if negb (is_admin_role user) then
    emit (callback_answer uid no_rights_text true)
  else
    ad ← query (get_ad ad_id);
    match ad with
    | None => emit (callback_answer uid ad_not_found_text true)
    | Some ad =>
        execute (update_ad_status now ad_id (py "rejected") None);;
        emit (edit_text uid (rejected_admin_text (title ad)) None);;
        try_except
          (bot_send_message (Chat (user_id ad)) (rejected_owner_text (title ad)) None)
          (fun _ => pass)
    end.

(** One round of the background task [cleanup_old_ads]. *)
Definition cleanup_task (now : datetime) : Handler unit :=
  execute (cleanup_old_ads now);;
  emit (log old_ads_cleaned_up);;
  emit (sleep (timedelta_seconds (24 * 60 * 60))).

(** *** admin.py: AdminHandlers *)

(** Modelled from the spec: [Database.get_all_users], which admin.py and
    utils.py call and database.py does not define; it is taken to return
    "every known user", the rows of [users]. *)
Definition get_all_users (d : Db) : list (Z * User) := map_to_list (users d).

Definition is_admin (uid : Z) : Handler bool :=
  user ← query (get_user uid);
  mret (is_admin_role user).

Definition is_superadmin_role (user : option User) : bool :=
  match user with
  | Some u => bool_decide (role u = py "superadmin")
  | None => false
  end.

Definition is_superadmin (uid : Z) : Handler bool :=
  user ← query (get_user uid);
  mret (is_superadmin_role user).

Definition get_admin_list_keyboard (admins : list (Z * User)) : Markup :=
  admin_list_keyboard
    (filter (fun admin => role admin.2 = py "admin") admins).

Definition handle_add_admin (uid : Z) : Handler unit :=
  ok ← is_superadmin uid;
  if negb ok then emit (callback_answer uid no_rights_text true)
  else
    set_state uid waiting_for_new_admin_id;;
    emit (edit_text uid ask_new_admin_id_text None).

(** [parsed] is [int(message.text.strip())], [None] when it raises
    [ValueError]. *)
Definition process_new_admin_id (uid : Z) (parsed : option Z) : Handler unit :=
  match parsed with
  | None => emit (message_answer uid bad_number_text None)
  | Some admin_id =>
      user ← query (get_user admin_id);
      match user with
      | None => emit (message_answer uid no_user_with_id_text None)
      | Some user =>
          if bool_decide (role user ∈ [py "admin"; py "superadmin"]) then
            emit (message_answer uid already_admin_text None)
          else
            success ← execute (update_user_role admin_id (py "admin"));
            (if success : bool then
               emit (message_answer uid
                       (admin_added_text (full_name user) admin_id) None);;
               try_except (bot_send_message (Chat admin_id) promoted_text None)
                          (fun _ => pass)
             else emit (message_answer uid failure_text None));;
            clear uid
      end
  end.

Definition handle_list_admins (uid : Z) : Handler unit :=
  ok ← is_superadmin uid;
  if negb ok then emit (callback_answer uid no_rights_text true)
  else
    admins ← query get_admins;
    if admins is [] then
      emit (edit_text uid no_admins_text (Some back_to_admin_management_keyboard))
    else
      emit (edit_text uid (admin_list_text admins)
                      (Some (get_admin_list_keyboard admins))).

Definition handle_remove_admin (uid : Z) (admin_id : Z) : Handler unit :=
  ok ← is_superadmin uid;
  if negb ok then emit (callback_answer uid no_rights_text true)
  else
    user ← query (get_user admin_id);
    match user with
    | None => emit (callback_answer uid user_not_found_text true)
    | Some user =>
        if bool_decide (role user = py "superadmin") then
          emit (callback_answer uid superadmin_not_removable_text true)
        else
          success ← execute (update_user_role admin_id (py "user"));
          if success : bool then
            emit (callback_answer uid (admin_removed_text (full_name user)) false);;
            try_except (bot_send_message (Chat admin_id) demoted_text None)
                       (fun _ => pass);;
            handle_list_admins uid
          else emit (callback_answer uid failure_text true)
    end.

Definition handle_broadcast_start (uid : Z) : Handler unit :=
  ok ← is_superadmin uid;
  if negb ok then emit (callback_answer uid no_rights_text true)
  else
    set_state uid waiting_for_broadcast_message;;
    emit (edit_text uid ask_broadcast_text None).

Definition process_broadcast_message (uid : Z) (text : pystr) : Handler unit :=
  ok ← is_superadmin uid;
  if negb ok then pass
  else
    users_ ← query get_all_users;
    if users_ is [] then
      emit (message_answer uid no_users_text None);;
      clear uid
    else
      update_data uid (fun d =>
        mkData (d_title d) (d_description d) (d_contact d) (d_edit_ad_id d)
               (Some text) (Some users_));;
      emit (message_answer uid (confirm_broadcast_text text (len users_))
                           (Some confirm_broadcast_keyboard)).

(** The [for user in users] loop with its two counters. *)
Fixpoint broadcast_loop (body : option pystr) (users_ : list (Z * User))
    (success_count failed_count : Z) : Handler (Z * Z) :=
  match users_ with
  | [] => mret (success_count, failed_count)
  | user :: rest =>
      counts ←
        try_except
          (bot_send_message (Chat user.1) (broadcast_text body) None;;
           emit (sleep 50000);;
           mret (success_count + 1, failed_count))
          (fun e =>
             (if negb (contains (py "bot was blocked") (lower (str_of e)))
              then emit (log (broadcast_error user.1 (str_of e)))
              else pass);;
             mret (success_count, failed_count + 1));
      broadcast_loop body rest counts.1 counts.2
  end.

Definition handle_confirm_broadcast (uid : Z) : Handler unit :=
  d ← get_data uid;
  let body := d_broadcast_text d in
  let users_ := default [] (d_users d) in
  emit (edit_text uid (broadcast_sending_text (len users_)) None);;
  counts ← broadcast_loop body users_ 0 0;
  emit (edit_text uid (broadcast_done_text counts.1 counts.2) None);;
  clear uid.

Definition handle_cancel_broadcast (uid : Z) : Handler unit :=
  emit (edit_text uid broadcast_cancelled_text None);;
  clear uid.

Definition handle_edit_title (uid : Z) (ad_id : Z) : Handler unit :=
  ok ← is_admin uid;
  if negb ok then emit (callback_answer uid no_rights_text true)
  else
    ad ← query (get_ad ad_id);
    match ad with
    | None => emit (callback_answer uid ad_not_found_text true)
    | Some ad =>
        set_state uid waiting_for_edit_title;;
        update_data uid (fun d =>
          mkData (d_title d) (d_description d) (d_contact d) (Some ad_id)
                 (d_broadcast_text d) (d_users d));;
        emit (edit_text uid (ask_new_title_text (title ad)) None)
    end.

Definition process_edit_title (uid : Z) (text : pystr) : Handler unit :=
  ok ← is_admin uid;
  if negb ok then pass
  else
    d ← get_data uid;
    let ad_id := d_edit_ad_id d in
    if negb (truthy_int ad_id) then
      emit (message_answer uid failure_text None);;
      clear uid
    else
      let new_title := strip text in
      if bool_decide (len new_title < 5) || bool_decide (len new_title > 100)
      then emit (message_answer uid edit_title_bounds_text None)
      else
        success ← execute (update_ad (default 0 ad_id) (Some new_title) None None);
        (if success : bool then
           emit (message_answer uid (title_updated_text new_title) None);;
           ad ← query (get_ad (default 0 ad_id));
           match ad with
           | Some ad =>
               try_except
                 (bot_send_message (Chat (user_id ad))
                                   (edited_owner_text new_title) None)
                 (fun _ => pass)
           | None => pass
           end
         else emit (message_answer uid failure_text None));;
        clear uid.

Definition handle_delete_ad (uid : Z) (ad_id : Z) : Handler unit :=
  ok ← is_admin uid;
  if negb ok then emit (callback_answer uid no_rights_text true)
  else
    ad ← query (get_ad ad_id);
    match ad with
    | None => emit (callback_answer uid ad_not_found_text true)
    | Some ad =>
        emit (edit_text uid (confirm_delete_text (title ad))
                        (Some (confirm_delete_keyboard ad_id)))
    end.

Definition handle_confirm_delete (uid : Z) (ad_id : Z) : Handler unit :=
  ad ← query (get_ad ad_id);
  match ad with
  | None => emit (callback_answer uid ad_not_found_text true)
  | Some ad =>
      success ← execute (delete_ad ad_id);
      if success : bool then
        emit (edit_text uid (deleted_admin_text (title ad)) None);;
        try_except
          (bot_send_message (Chat (user_id ad)) (deleted_owner_text (title ad)) None)
          (fun _ => pass)
      else emit (callback_answer uid failure_text true)
  end.

(** *** Updates and their dispatch *)

(** An update the bot receives, or a round of the background sweep.
    [wizard_text] is a text message other than the start command and the
    create button, which main.py routes by the FSM state of its sender.
    admin.py registers nothing itself: its callbacks are entered
    directly, its message handlers under the state of [AdminStates] that
    [handle_add_admin], [handle_edit_title] and [handle_broadcast_start]
    set for them.  The handlers that only render a view (lists,
    statistics, menus) leave the world as it is and are left out. *)
Inductive Op :=
| start_command (now : datetime) (uid : Z) (name : pystr)
| create_ad_button (now : datetime) (uid : Z)
| wizard_text (uid : Z) (text : pystr)
| category_callback (now : datetime) (uid : Z) (category_index : Z)
| approve_callback (now : datetime) (uid : Z) (ad_id : Z)
| reject_callback (now : datetime) (uid : Z) (ad_id : Z)
| sweep (now : datetime)
| add_admin_callback (uid : Z)
| new_admin_id_text (uid : Z) (parsed : option Z)
| remove_admin_callback (uid : Z) (admin_id : Z)
| broadcast_callback (uid : Z)
| broadcast_message_text (uid : Z) (text : pystr)
| confirm_broadcast_callback (uid : Z)
| cancel_broadcast_callback (uid : Z)
| edit_title_callback (uid : Z) (ad_id : Z)
| edit_title_text (uid : Z) (text : pystr)
| delete_callback (uid : Z) (ad_id : Z)
| confirm_delete_callback (uid : Z) (ad_id : Z).

(** A handler registered under an FSM state runs only in that state. *)
Definition in_state (uid : Z) (s : State) (h : Handler unit) : Handler unit :=
  fun w => if bool_decide (state (context_of w uid) = Some s) then h w
           else (Returned tt, w, []).

Definition handle (op : Op) : Handler unit :=
  match op with
  | start_command now uid name => start_handler now uid name
  | create_ad_button now uid => create_ad_handler now uid
  | wizard_text uid text =>
      fun w =>
        match state (context_of w uid) with
        | Some waiting_for_title => process_title uid text w
        | Some waiting_for_description => process_description uid text w
        | Some waiting_for_contact => process_contact uid text w
        | _ => (Returned tt, w, [])
        end
  | category_callback now uid i => process_category now uid i
  | approve_callback now uid ad_id => approve_ad_callback now uid ad_id
  | reject_callback now uid ad_id => reject_ad_callback now uid ad_id
  | sweep now => cleanup_task now
  | add_admin_callback uid => handle_add_admin uid
  | new_admin_id_text uid parsed =>
      in_state uid waiting_for_new_admin_id (process_new_admin_id uid parsed)
  | remove_admin_callback uid admin_id => handle_remove_admin uid admin_id
  | broadcast_callback uid => handle_broadcast_start uid
  | broadcast_message_text uid text =>
      in_state uid waiting_for_broadcast_message
               (process_broadcast_message uid text)
  | confirm_broadcast_callback uid => handle_confirm_broadcast uid
  | cancel_broadcast_callback uid => handle_cancel_broadcast uid
  | edit_title_callback uid ad_id => handle_edit_title uid ad_id
  | edit_title_text uid text =>
      in_state uid waiting_for_edit_title (process_edit_title uid text)
  | delete_callback uid ad_id => handle_delete_ad uid ad_id
  | confirm_delete_callback uid ad_id => handle_confirm_delete uid ad_id
  end.

(** The world an update leaves, whether its handler returned or raised. *)
Definition step (op : Op) (w : World) : World := (handle op w).1.2.

Definition run (ops : list Op) (w : World) : World :=
  foldl (fun w op => step op w) w ops.

(** The calls an update made. *)
Definition calls (op : Op) (w : World) : list Effect := (handle op w).2.

End Handlers.

(** *** Observations on a world and on a list of calls *)

(** The primary keys in use lie below the autoincrement sequence. *)
Definition fresh_ids (w : World) : Prop :=
  forall i, is_Some (ads (db w) !! i) -> i < next_ad_id (db w).

Definition same_ads (w w' : World) : Prop :=
  ads (db w') = ads (db w) /\ next_ad_id (db w') = next_ad_id (db w).


Section Broadcast.
Variable deliver : Recipient -> Text -> option pystr.
Variable lower : pystr -> pystr.

(** Whether the broadcast reaches a user. *)
Definition delivered_to (body : option pystr) (user : Z * User) : bool :=
  match deliver (Chat user.1) (broadcast_text body) with
  | None => true
  | Some _ => false
  end.

(** The calls of one turn of the broadcast loop. *)
Definition broadcast_calls (body : option pystr) (user : Z * User)
    : list Effect :=
  send_message (Chat user.1) (broadcast_text body) None ::
  match deliver (Chat user.1) (broadcast_text body) with
  | None => [sleep 50000]
  | Some m =>
      if negb (contains (py "bot was blocked") (lower m))
      then [log (broadcast_error user.1 m)] else []
  end.


End Broadcast.

(** The recipients of the [bot.send_message] calls, in order. *)
Definition sends (o : list Effect) : list Recipient :=
  omap (fun e => match e with send_message to _ _ => Some to | _ => None end) o.

(** The lines written to the log, in order. *)
Definition logged (o : list Effect) : list LogLine :=
  omap (fun e => match e with log l => Some l | _ => None end) o.

(** The texts published to the public channel, in order. *)
Definition published (o : list Effect) : list Text :=
  omap (fun e => match e with
                 | send_message Channel t _ => Some t
                 | _ => None
                 end) o.

End Bot.

(** ** A small community, for running the handlers *)

Module Demo.
Import Database Bot.

(** Every send is delivered. *)
Definition delivered : Recipient -> Text -> option pystr := fun _ _ => None.

(** [str.lower] on ASCII text. *)
Definition ascii_lower (s : pystr) : pystr :=
  (fun c => if ((65 <=? c) && (c <=? 90))%N then (c + 32)%N else c) <$> s.

Definition superadmin : User := mkUser 1 (py "SuperAdmin") (py "superadmin") 0 false.
Definition moderator : User := mkUser 2 (py "Madina") (py "admin") 0 false.
Definition ali : User := mkUser 3 (py "Ali") (py "user") 0 false.
Definition vali : User := mkUser 4 (py "Vali") (py "user") 0 false.

(** A listing of Ali's, created on day 10. *)
Definition listing (st : pystr) : Ad :=
  mkAd 300 (py "Python dasturchi") (py "Tajribali Python dasturchi kerak")
       (128187%N :: py " IT") (py "+998901234567") st
       (timedelta_days 10) (timedelta_days 17) None None.

Definition people : gmap Z User :=
  {[ SUPERADMIN_ID := superadmin; 200 := moderator; 300 := ali; 400 := vali ]}.

(** The store with one listing, number 1, in the given status. *)
Definition store (st : pystr) : Db :=
  mkDb people {[ 1 := listing st ]} 5 2 ∅.

Definition world (st : pystr) : World := mkWorld (store st) ∅.

(** Ali has three listings of day 10. *)
Definition busy_world : World :=
  mkWorld
    (mkDb people
          {[ 1 := listing (py "pending"); 2 := listing (py "approved");
             3 := listing (py "rejected") ]} 5 4 ∅)
    ∅.

(** The moderator has been asked for a new title of listing 1. *)
Definition editing : World :=
  mkWorld (store (py "approved"))
          {[ 200 := mkContext (Some waiting_for_edit_title)
                              (mkData None None None (Some 1) None None) ]}.

(** 101 characters: a title followed by spaces. *)
Definition padded_title : pystr := py "Kassir" ++ replicate 95 32%N.


(** Ali has blocked the bot and Vali's chat is gone. *)
Definition flaky : Recipient -> Text -> option pystr :=
  fun to _ =>
    match to with
    | Chat 300 => Some (py "Forbidden: bot was blocked by the user")
    | Chat 400 => Some (py "Bad Request: chat not found")
    | _ => None
    end.

End Demo.

(** * Properties *)

Import Database Bot.

(** ** The store *)

Section StoreFacts.

Lemma update_ad_status_missing now ad_id st by_ d :
  ads d !! ad_id = None -> update_ad_status now ad_id st by_ d = (false, d).
Proof. intros H. unfold update_ad_status. by rewrite H. Qed.

Lemma update_ad_status_found now ad_id st by_ d ad :
  ads d !! ad_id = Some ad ->
  exists ad',
    update_ad_status now ad_id st by_ d
      = (true, with_ads (<[ad_id := ad']> (ads d)) d) /\
    (ad' = set_status st ad \/
     (ad' = set_approval by_ now (set_status st ad) /\
      st = py "approved" /\ truthy_int by_ = true)).
Proof.
  intros H. unfold update_ad_status. rewrite H.
  case_bool_decide as Hst; simpl.
  - destruct (truthy_int by_) eqn:Hby; eexists; split; eauto.
  - eexists; split; eauto.
Qed.

Lemma truthy_int_is_Some o : truthy_int o = true -> is_Some o.
Proof. destruct o; [eauto | discriminate]. Qed.

(** What the sweep keeps: exactly the rows it did not select. *)
Lemma cleanup_old_ads_lookup now d i ad :
  ads (cleanup_old_ads now d).2 !! i = Some ad <->
  ads d !! i = Some ad /\ now - timedelta_days 7 <= expires_at ad.
Proof.
  unfold cleanup_old_ads, old_ads; simpl.
  rewrite lookup_difference_Some, map_lookup_filter_None. split.
  - intros [Hi [Hn | Hn]]; [congruence |].
    split; [done |]. specialize (Hn _ Hi). simpl in Hn. lia.
  - intros [Hi Hle]. split; [done |]. right. intros ad0 Hi0.
    assert (ad0 = ad) as -> by congruence. simpl. lia.
Qed.

End StoreFacts.

(** C10.  A status update of an existing listing writes [status]; it
    leaves the owner, title, description, category, contact, creation and
    expiry of the listing as they were, and every other listing, the
    users and the settings untouched.  It writes [approved_by] and
    [approved_at] only if the new status is approved and an approver was
    given; a rejection keeps both as recorded. *)
Theorem update_ad_status_frame now ad_id st by_ d ad :
  ads d !! ad_id = Some ad ->
  exists ad',
    ads (update_ad_status now ad_id st by_ d).2 !! ad_id = Some ad' /\
    status ad' = st /\
    user_id ad' = user_id ad /\ title ad' = title ad /\
    description ad' = description ad /\ category ad' = category ad /\
    contact ad' = contact ad /\ created_at ad' = created_at ad /\
    expires_at ad' = expires_at ad /\
    ((approved_by ad' <> approved_by ad \/ approved_at ad' <> approved_at ad) ->
       st = py "approved" /\ is_Some by_) /\
    (st = py "rejected" ->
       approved_by ad' = approved_by ad /\ approved_at ad' = approved_at ad) /\
    (forall other, other <> ad_id ->
       ads (update_ad_status now ad_id st by_ d).2 !! other = ads d !! other) /\
    users (update_ad_status now ad_id st by_ d).2 = users d /\
    settings (update_ad_status now ad_id st by_ d).2 = settings d.
Proof.
  intros Hfound.
  destruct (update_ad_status_found now ad_id st by_ d ad Hfound)
    as (ad' & -> & Hshape).
  exists ad'. simpl. rewrite lookup_insert_eq.
  split; [done |].
  assert (Hother : forall other, other <> ad_id ->
            <[ad_id := ad']> (ads d) !! other = ads d !! other)
    by (intros; by rewrite lookup_insert_ne).
  destruct Hshape as [Had | (Had & Hst & Hby)]; subst; simpl.
  - split_and!; try done. intros [Hneq | Hneq]; by destruct Hneq.
  - split_and!; try done.
    intros _. split; [done | by apply truthy_int_is_Some].
Qed.

Lemma update_ad_status_frame_witness :
  exists ad',
    ads (update_ad_status 100 1 (py "rejected") None
           (mkDb ∅ {[ 1 := mkAd 7 (py "Kassir") (py "Kassir kerak")
                              (py "IT") (py "+998901234567") (py "approved")
                              0 (timedelta_days 7) (Some 5) (Some 50) ]}
                 1 2 ∅)).2 !! 1 = Some ad' /\
    status ad' = py "rejected" /\ approved_by ad' = Some 5 /\
    approved_at ad' = Some 50.
Proof.
  edestruct (update_ad_status_frame 100 1 (py "rejected") None
               (mkDb ∅ {[ 1 := mkAd 7 (py "Kassir") (py "Kassir kerak")
                                  (py "IT") (py "+998901234567") (py "approved")
                                  0 (timedelta_days 7) (Some 5) (Some 50) ]}
                     1 2 ∅))
    as (ad' & H1 & H2 & _ & _ & _ & _ & _ & _ & _ & _ & H3 & _).
  - reflexivity.
  - exists ad'. destruct (H3 eq_refl) as [Ha Hb]. repeat split; assumption.
Defined.

(** ** The rate limiter *)

Section RateLimiterFacts.
Import RateLimiter.

Lemma recent_all cutoff l :
  Forall (fun t => cutoff < t) l -> recent cutoff l = l.
Proof.
  unfold recent. induction 1 as [| t l Ht _ IH]; [done |].
  rewrite filter_cons_True by done. by rewrite IH.
Qed.

Lemma recent_none cutoff l :
  Forall (fun t => t <= cutoff) l -> recent cutoff l = [].
Proof.
  unfold recent. induction 1 as [| t l Ht _ IH]; [done |].
  rewrite filter_cons_False by lia. done.
Qed.

Lemma actions_of_insert uid l m :
  actions_of {| user_actions := <[uid := l]> m |} uid = l.
Proof. unfold actions_of; simpl. by rewrite lookup_insert_eq. Qed.

(** One check, in full. *)
Lemma is_rate_limited_spec now uid max_actions time_window self :
  let kept := recent (now - timedelta_seconds time_window) (actions_of self uid) in
  let limited := bool_decide (max_actions <= len kept) in
  is_rate_limited now uid max_actions time_window self =
    (limited,
     {| user_actions :=
          <[uid := if limited then kept else kept ++ [now]]> (user_actions self) |}).
Proof.
  simpl. unfold is_rate_limited. by case_bool_decide.
Qed.

Lemma checks_app uid l1 l2 self :
  checks uid (l1 ++ l2) self =
    ((checks uid l1 self).1 ++ (checks uid l2 (checks uid l1 self).2).1,
     (checks uid l2 (checks uid l1 self).2).2).
Proof.
  revert self. induction l1 as [| now l1 IH]; intros self; simpl.
  - by destruct (checks uid l2 self).
  - destruct (is_rate_limited now uid 10 60 self) as [r self1].
    rewrite IH. destruct (checks uid l1 self1) as [rs self2]; simpl.
    by destruct (checks uid l2 self2).
Qed.

(** While fewer than ten actions are on record and all of them are
    inside the window of every later check, each check is allowed and
    recorded. *)
Lemma checks_allowed uid T times : forall self,
  Forall (fun t => T - timedelta_seconds 60 < t) (actions_of self uid ++ times) ->
  Forall (fun t => t <= T) times ->
  (length (actions_of self uid) + length times <= 10)%nat ->
  (checks uid times self).1 = replicate (length times) false /\
  actions_of (checks uid times self).2 uid = actions_of self uid ++ times.
Proof.
  induction times as [| now rest IH]; intros self Hwin Hle Hlen; simpl.
  - by rewrite app_nil_r.
  - apply Forall_app in Hwin as [Hacc Hrest].
    apply Forall_cons in Hrest as [Hnow Hrest].
    apply Forall_cons in Hle as [HnowT HleT].
    simpl in Hlen.
    rewrite is_rate_limited_spec.
    rewrite recent_all
      by (eapply Forall_impl; [exact Hacc | simpl; intros; lia]).
    rewrite bool_decide_eq_false_2 by (unfold len; lia).
    set (self1 := {| user_actions := _ |}).
    assert (Hacts : actions_of self1 uid = actions_of self uid ++ [now])
      by apply actions_of_insert.
    destruct (IH self1) as [Hres Hfinal].
    + rewrite Hacts, <- app_assoc. simpl.
      apply Forall_app. split; [done |]. by apply Forall_cons.
    + done.
    + rewrite Hacts, length_app. simpl. lia.
    + destruct (checks uid rest self1) as [rs self2]; simpl in *.
      rewrite Hres, Hfinal, Hacts, <- app_assoc. done.
Qed.

End RateLimiterFacts.

(** C6.  A check of a user first drops the user's timestamps that are
    not newer than [now - time_window]; if at least [max_actions] remain
    it answers limited and records nothing, otherwise it appends [now]
    and answers allowed; other users' records are not touched.  With the
    defaults (10 per 60 seconds) ten actions inside one window are
    allowed, an eleventh inside that window is limited, and an action
    once 60 seconds have passed since all ten is allowed again. *)
Theorem rate_limiter_sliding_window :
  (forall now uid max_actions time_window self,
     let kept := filter (fun t => now - timedelta_seconds time_window < t)
                        (RateLimiter.actions_of self uid) in
     let r := RateLimiter.is_rate_limited now uid max_actions time_window self in
     (r.1 = true <-> max_actions <= len kept) /\
     RateLimiter.actions_of r.2 uid = (if r.1 then kept else kept ++ [now]) /\
     (forall t, t ∈ kept <->
        t ∈ RateLimiter.actions_of self uid /\
        now - timedelta_seconds time_window < t) /\
     (forall other, other <> uid ->
        RateLimiter.user_actions r.2 !! other
          = RateLimiter.user_actions self !! other)) /\
  (forall uid self ts t11 t12,
     RateLimiter.actions_of self uid = [] ->
     length ts = 10%nat ->
     Forall (fun t => t11 - timedelta_seconds 60 < t /\ t <= t11) ts ->
     Forall (fun t => t + timedelta_seconds 60 <= t12) ts ->
     (RateLimiter.checks uid (ts ++ [t11; t12]) self).1
       = replicate 10 false ++ [true; false]).
Proof.
  split.
  - intros now uid max_actions time_window self kept r.
    subst r. rewrite is_rate_limited_spec. fold kept. simpl.
    split_and!.
    + by rewrite bool_decide_eq_true.
    + by rewrite actions_of_insert.
    + intros t. subst kept. rewrite list_elem_of_filter. tauto.
    + intros other Hne. by rewrite lookup_insert_ne.
  - intros uid self ts t11 t12 Hempty Hlen Hwin Hpast.
    destruct (checks_allowed uid t11 ts self) as [Hres Hrec].
    + rewrite Hempty. simpl. eapply Forall_impl; [exact Hwin |]. simpl. tauto.
    + eapply Forall_impl; [exact Hwin |]. simpl. tauto.
    + rewrite Hempty, Hlen. simpl. lia.
    + rewrite Hempty in Hrec. simpl in Hrec.
      rewrite checks_app, Hres, Hlen. f_equal.
      set (self10 := (RateLimiter.checks uid ts self).2) in *.
      simpl. rewrite !is_rate_limited_spec. simpl.
      rewrite Hrec.
      rewrite recent_all
        by (eapply Forall_impl; [exact Hwin |]; simpl; tauto).
      rewrite bool_decide_eq_true_2 by (unfold len; lia).
      rewrite actions_of_insert.
      rewrite recent_none
        by (eapply Forall_impl; [exact Hpast |]; simpl; intros; lia).
      reflexivity.
Qed.

Lemma rate_limiter_sliding_window_witness :
  (RateLimiter.checks 42
     ((timedelta_seconds <$> [1; 2; 3; 4; 5; 6; 7; 8; 9; 10]) ++
      [timedelta_seconds 59; timedelta_seconds 70])
     RateLimiter.init).1
  = replicate 10 false ++ [true; false].
Proof.
  apply (proj2 rate_limiter_sliding_window 42 RateLimiter.init
           (timedelta_seconds <$> [1; 2; 3; 4; 5; 6; 7; 8; 9; 10])
           (timedelta_seconds 59) (timedelta_seconds 70)).
  - reflexivity.
  - reflexivity.
  - repeat constructor; vm_compute; congruence.
  - repeat constructor; vm_compute; congruence.
Defined.

(** ** Running a handler *)

Section HandlerFacts.

Lemma after_nil {A} (r : Outcome A * World * list Effect) : after [] r = r.
Proof. by destruct r as [[? ?] ?]. Qed.

Lemma after_after {A} o1 o2 (r : Outcome A * World * list Effect) :
  after o1 (after o2 r) = after (o1 ++ o2) r.
Proof. unfold after; simpl. by rewrite app_assoc. Qed.

Lemma bind_returned {A B} (m : Handler A) (k : A -> Handler B) w a w1 o1 :
  m w = (Returned a, w1, o1) -> (m ≫= k) w = after o1 (k a w1).
Proof.
  intros Hm. unfold mbind, Handler_bind. rewrite Hm.
  by destruct (k a w1) as [[? ?] ?].
Qed.

Lemma bind_raised {A B} (m : Handler A) (k : A -> Handler B) w e w1 o1 :
  m w = (Raised e, w1, o1) -> (m ≫= k) w = (Raised e, w1, o1).
Proof. intros Hm. unfold mbind, Handler_bind. by rewrite Hm. Qed.

Lemma bind_query {A B} (f : Db -> A) (k : A -> Handler B) w :
  (query f ≫= k) w = k (f (db w)) w.
Proof. erewrite bind_returned by reflexivity. apply after_nil. Qed.

Lemma bind_execute {A B} (f : Db -> A * Db) (k : A -> Handler B) w :
  (execute f ≫= k) w = k (f (db w)).1 (mkWorld (f (db w)).2 (storage w)).
Proof.
  erewrite bind_returned; [apply after_nil |].
  unfold execute. by destruct (f (db w)).
Qed.

Lemma bind_emit {B} e (k : unit -> Handler B) w :
  (emit e ≫= k) w = after [e] (k tt w).
Proof. by erewrite bind_returned by reflexivity. Qed.

Lemma bind_get_data {B} uid (k : Data -> Handler B) w :
  (get_data uid ≫= k) w = k (data (context_of w uid)) w.
Proof. erewrite bind_returned by reflexivity. apply after_nil. Qed.

Lemma bind_put_context {B} uid c (k : unit -> Handler B) w :
  (put_context uid c ≫= k) w
    = k tt (mkWorld (db w) (<[uid := c]> (storage w))).
Proof. erewrite bind_returned by reflexivity. apply after_nil. Qed.

Lemma bind_mret {A B} (a : A) (k : A -> Handler B) w : (mret a ≫= k) w = k a w.
Proof. erewrite bind_returned by reflexivity. apply after_nil. Qed.

Lemma world_after {A} o (r : Outcome A * World * list Effect) :
  (after o r).1.2 = r.1.2.
Proof. done. Qed.

Lemma calls_after {A} o (r : Outcome A * World * list Effect) :
  (after o r).2 = o ++ r.2.
Proof. done. Qed.

End HandlerFacts.

Section GuardedSends.
Variable deliver : Recipient -> Text -> option pystr.

(** A send whose failure is swallowed: one call, and the handler goes on. *)
Lemma guarded_send to t m w :
  try_except (bot_send_message deliver to t m) (fun _ => pass) w
    = (Returned tt, w, [send_message to t m]).
Proof.
  unfold try_except, bot_send_message. rewrite bind_emit.
  destruct (deliver to t); reflexivity.
Qed.

Lemma post_ad_to_channel_runs ad w :
  post_ad_to_channel deliver ad w =
    (Returned tt, w,
     send_message Channel (channel_text ad) None ::
     match deliver Channel (channel_text ad) with
     | Some m => [log (failed_to_post_to_channel m)]
     | None => []
     end).
Proof.
  unfold post_ad_to_channel. rewrite bind_query.
  unfold try_except, bot_send_message. rewrite bind_emit.
  destruct (deliver Channel (channel_text ad)); reflexivity.
Qed.

End GuardedSends.

Section MoreHandlerFacts.
Variable deliver : Recipient -> Text -> option pystr.

Lemma bind_assoc {A B C} (m : Handler A) (f : A -> Handler B)
    (g : B -> Handler C) w :
  ((m ≫= f) ≫= g) w = (m ≫= (fun x => f x ≫= g)) w.
Proof.
  unfold mbind, Handler_bind.
  destruct (m w) as [[[a | e] w1] o1]; [| done].
  destruct (f a w1) as [[[b | e] w2] o2]; [| done].
  destruct (g b w2) as [[r w3] o3]. by rewrite app_assoc.
Qed.

Lemma bind_raise {A B} e (k : A -> Handler B) w :
  (raise e ≫= k) w = (Raised e, w, []).
Proof. by apply bind_raised. Qed.

Lemma bind_set_state {B} uid s (k : unit -> Handler B) w :
  (set_state uid s ≫= k) w
    = k tt (mkWorld (db w)
              (<[uid := mkContext (Some s) (data (context_of w uid))]> (storage w))).
Proof. erewrite bind_returned by reflexivity. apply after_nil. Qed.

Lemma bind_update_data {B} uid f (k : unit -> Handler B) w :
  (update_data uid f ≫= k) w
    = k tt (mkWorld (db w)
              (<[uid := mkContext (state (context_of w uid))
                                  (f (data (context_of w uid)))]> (storage w))).
Proof. erewrite bind_returned by reflexivity. apply after_nil. Qed.

Lemma bind_clear {B} uid (k : unit -> Handler B) w :
  (clear uid ≫= k) w = k tt (mkWorld (db w) (<[uid := idle]> (storage w))).
Proof. apply bind_put_context. Qed.

Lemma bind_is_admin {B} uid (k : bool -> Handler B) w :
  (is_admin uid ≫= k) w = k (is_admin_role (users (db w) !! uid)) w.
Proof. unfold is_admin. by rewrite bind_assoc, bind_query, bind_mret. Qed.

Lemma bind_is_superadmin {B} uid (k : bool -> Handler B) w :
  (is_superadmin uid ≫= k) w = k (is_superadmin_role (users (db w) !! uid)) w.
Proof. unfold is_superadmin. by rewrite bind_assoc, bind_query, bind_mret. Qed.

Lemma bind_guarded_send {B} to t m (k : unit -> Handler B) w :
  (try_except (bot_send_message deliver to t m) (fun _ => pass) ≫= k) w
    = after [send_message to t m] (k tt w).
Proof. erewrite bind_returned; [done |]. apply guarded_send. Qed.

(** A send whose failure is logged. *)
Lemma logged_send to t m (line : pystr -> LogLine) w :
  try_except (bot_send_message deliver to t m)
             (fun e => emit (log (line (str_of e)))) w
    = (Returned tt, w,
       send_message to t m ::
       match deliver to t with Some msg => [log (line msg)] | None => [] end).
Proof.
  unfold try_except, bot_send_message. rewrite bind_emit.
  destruct (deliver to t); reflexivity.
Qed.

Lemma bind_post_ad_to_channel {B} ad (k : unit -> Handler B) w :
  (post_ad_to_channel deliver ad ≫= k) w
    = after (send_message Channel (channel_text ad) None ::
             match deliver Channel (channel_text ad) with
             | Some m => [log (failed_to_post_to_channel m)]
             | None => []
             end) (k tt w).
Proof. erewrite bind_returned; [done |]. apply post_ad_to_channel_runs. Qed.

(** The notification loop over the admins leaves the world alone. *)
Lemma notify_loop_world (send : Z * User -> Handler unit) admins w :
  (forall a w0, exists o, send a w0 = (Returned tt, w0, o)) ->
  exists o,
    foldr (fun admin (rest : Handler unit) => send admin;; rest) pass admins w
      = (Returned tt, w, o).
Proof.
  intros Hsend. induction admins as [| a admins [o IH]]; simpl.
  - by exists [].
  - destruct (Hsend a w) as [o1 H1].
    erewrite bind_returned by exact H1. rewrite IH.
    by eexists.
Qed.

Lemma notify_admins_world ad_id w :
  (notify_admins_about_new_ad deliver ad_id w).1.2 = w.
Proof.
  unfold notify_admins_about_new_ad. rewrite bind_query.
  destruct (get_ad ad_id (db w)) as [ad |]; [| done].
  rewrite !bind_query.
  destruct (get_user (user_id ad) (db w)) as [u |].
  - rewrite bind_mret.
    edestruct (notify_loop_world
                 (fun admin : Z * User =>
                    try_except
                      (bot_send_message deliver (Chat admin.1)
                         (new_ad_text (full_name u) ad)
                         (Some (ad_action_keyboard ad_id)))
                      (fun e => emit (log (failed_to_notify_admin admin.1 (str_of e)))))
                 (get_admins (db w)) w) as [o Ho].
    + intros a w0. rewrite logged_send. by eexists.
    + by rewrite Ho.
  - by rewrite bind_raise.
Qed.

End MoreHandlerFacts.

(** ** What an update does to the listings *)

Ltac hstep :=
  first
    [ rewrite bind_assoc
    | rewrite bind_query | rewrite bind_execute | rewrite bind_emit
    | rewrite bind_get_data | rewrite bind_set_state | rewrite bind_update_data
    | rewrite bind_clear | rewrite bind_put_context
    | rewrite bind_is_admin | rewrite bind_is_superadmin
    | rewrite bind_guarded_send | rewrite bind_post_ad_to_channel
    | rewrite bind_mret | rewrite bind_raise
    | rewrite world_after ].

Ltac hrun := repeat (hstep; cbv beta).

Ltac hcase :=
  match goal with
  | |- context [match ?x with _ => _ end] => destruct x eqn:?
  end.

Ltac hauto_run :=
  repeat (hrun;
          unfold update_user_role, create_user, insert_user, get_user, get_ad in *;
          simpl; try done; hcase).

Section Listings.
Variable deliver : Recipient -> Text -> option pystr.
Variable lower : pystr -> pystr.

Lemma broadcast_loop_runs body users_ : forall s f w,
  broadcast_loop deliver lower body users_ s f w =
    (Returned (s + len (filter (fun u => delivered_to deliver body u = true) users_),
               f + len (filter (fun u => delivered_to deliver body u = false) users_)),
     w, users_ ≫= broadcast_calls deliver lower body).
Proof.
  induction users_ as [| user rest IH]; intros s f w.
  - simpl. unfold len. simpl. by rewrite !Z.add_0_r.
  - cbn [broadcast_loop].
    assert (Hone :
      try_except
        (bot_send_message deliver (Chat user.1) (broadcast_text body) None;;
         emit (sleep 50000);; mret (s + 1, f))
        (fun e =>
           (if negb (contains (py "bot was blocked") (lower (str_of e)))
            then emit (log (broadcast_error user.1 (str_of e)))
            else pass);;
           mret (s, f + 1)) w
      = (Returned (if delivered_to deliver body user
                   then (s + 1, f) else (s, f + 1)),
         w, broadcast_calls deliver lower body user)).
    { unfold try_except, bot_send_message, broadcast_calls, delivered_to.
      rewrite bind_assoc, bind_emit.
      destruct (deliver (Chat user.1) (broadcast_text body)) as [m |].
      - rewrite bind_raise. simpl.
        destruct (contains (py "bot was blocked") (lower m)); simpl;
          repeat hstep; done.
      - simpl; repeat hstep; done. }
    erewrite bind_returned by exact Hone.
    rewrite IH. unfold after, len. simpl.
    destruct (delivered_to deliver body user) eqn:Hd; simpl.
    + rewrite filter_cons_True by done.
      rewrite filter_cons_False by (rewrite Hd; done).
      simpl. do 3 f_equal. f_equal; lia.
    + rewrite filter_cons_False by (rewrite Hd; done).
      rewrite filter_cons_True by done.
      simpl. do 3 f_equal. f_equal; lia.
Qed.

Lemma handle_list_admins_world uid w : (handle_list_admins uid w).1.2 = w.
Proof. unfold handle_list_admins. hauto_run. Qed.

(** The updates that neither create, review, edit, delete nor sweep
    listings leave the table of listings as it is. *)
Lemma other_updates_keep_ads op w :
  match op with
  | category_callback _ _ _ | approve_callback _ _ _ | reject_callback _ _ _
  | sweep _ | edit_title_text _ _ | confirm_delete_callback _ _ => True
  | _ => same_ads w (step deliver lower op w)
  end.
Proof.
  destruct op; try exact I; unfold same_ads, step, handle.
  - unfold start_handler, get_user_keyboard. hauto_run.
  - unfold create_ad_handler. hauto_run.
  - destruct (state (context_of w uid)) as [[] |]; try done.
    + unfold process_title. hauto_run.
    + unfold process_description. hauto_run.
    + unfold process_contact. hauto_run.
  - unfold handle_add_admin. hauto_run.
  - unfold in_state, process_new_admin_id. hauto_run.
  - unfold handle_remove_admin. hauto_run.
    by rewrite handle_list_admins_world.
  - unfold handle_broadcast_start. hauto_run.
  - unfold in_state, process_broadcast_message. hauto_run.
  - unfold handle_confirm_broadcast. hrun.
    erewrite bind_returned by apply broadcast_loop_runs.
    hauto_run.
  - unfold handle_cancel_broadcast. hauto_run.
  - unfold handle_edit_title. hauto_run.
  - unfold handle_delete_ad. hauto_run.
Qed.

End Listings.

Section Review.
Variable deliver : Recipient -> Text -> option pystr.
Variable lower : pystr -> pystr.

Abbreviation step' := (step deliver lower).

Lemma category_callback_ads now uid i w :
  same_ads w (step' (category_callback now uid i) w) \/
  exists ad,
    status ad = py "pending" /\
    ads (db (step' (category_callback now uid i) w))
      = <[next_ad_id (db w) := ad]> (ads (db w)) /\
    next_ad_id (db (step' (category_callback now uid i) w))
      = next_ad_id (db w) + 1.
Proof.
  unfold step, handle, process_category, subscript.
  destruct (getitem CATEGORIES i) as [c |]; [| left; hrun; done].
  hrun.
  destruct (d_title _) as [t |]; [| left; hrun; done]. hrun.
  destruct (d_description _) as [de |]; [| left; hrun; done]. hrun.
  destruct (d_contact _) as [co |]; [| left; hrun; done]. hrun.
  right. rewrite notify_admins_world. simpl.
  eexists. split_and!; [| reflexivity | reflexivity]. done.
Qed.

Lemma review_ads (approve : bool) now uid ad_id w :
  let op := if approve then approve_callback now uid ad_id
            else reject_callback now uid ad_id in
  let st := if approve then py "approved" else py "rejected" in
  same_ads w (step' op w) \/
  (is_admin_role (users (db w) !! uid) = true /\
   exists ad,
     ads (db w) !! ad_id = Some ad /\
     ads (db (step' op w)) = <[ad_id := set_status st ad]> (ads (db w)) /\
     next_ad_id (db (step' op w)) = next_ad_id (db w)).
Proof.
  destruct approve; simpl; unfold step, handle,
    approve_ad_callback, reject_ad_callback; hrun; unfold get_user, get_ad.
  all: destruct (is_admin_role (users (db w) !! uid)) eqn:Hadm; simpl;
    [| by left].
  all: hrun; destruct (ads (db w) !! ad_id) as [ad |] eqn:Had; [| by left].
  all: right; split; [done |]; exists ad; split; [done |].
  all: hrun; unfold update_ad_status; rewrite Had; simpl.
  all: rewrite guarded_send; done.
Qed.

Lemma sweep_ads now w :
  ads (db (step' (sweep now) w)) = ads (db w) ∖ old_ads now (db w) /\
  next_ad_id (db (step' (sweep now) w)) = next_ad_id (db w).
Proof. unfold step, handle, cleanup_task. hrun. done. Qed.

Lemma edit_title_text_ads uid text w :
  same_ads w (step' (edit_title_text uid text) w) \/
  exists ad_id ad t,
    ads (db w) !! ad_id = Some ad /\
    ads (db (step' (edit_title_text uid text) w))
      = <[ad_id := set_title t ad]> (ads (db w)) /\
    next_ad_id (db (step' (edit_title_text uid text) w)) = next_ad_id (db w).
Proof.
  unfold step, handle, in_state, process_edit_title.
  case_bool_decide; [| by left]. hrun.
  destruct (is_admin_role _); simpl; [| by left]. hrun.
  destruct (truthy_int _); simpl; [| left; hrun; done].
  destruct (_ || _); [by left |]. hrun.
  unfold update_ad.
  destruct (ads (db w) !! default 0 (d_edit_ad_id (data (context_of w uid))))
    as [ad |] eqn:Had; simpl.
  - right. exists (default 0 (d_edit_ad_id (data (context_of w uid)))), ad.
    destruct (strip text) as [| c t] eqn:Ht.
    + exists (title ad). split; [done |]. hrun. unfold get_ad. simpl.
      rewrite lookup_insert_eq. hrun. simpl. split; [| done].
      f_equal. by destruct ad.
    + exists (c :: t). split; [done |]. hrun. unfold get_ad. simpl.
      rewrite lookup_insert_eq. hrun. done.
  - left. hrun. done.
Qed.

Lemma confirm_delete_ads uid ad_id w :
  same_ads w (step' (confirm_delete_callback uid ad_id) w) \/
  (ads (db (step' (confirm_delete_callback uid ad_id) w))
     = delete ad_id (ads (db w)) /\
   next_ad_id (db (step' (confirm_delete_callback uid ad_id) w))
     = next_ad_id (db w)).
Proof.
  unfold step, handle, handle_confirm_delete. hrun. unfold get_ad.
  destruct (ads (db w) !! ad_id) as [ad |] eqn:Had; [| by left].
  right. hrun. unfold delete_ad. rewrite Had. simpl. hrun.
  rewrite guarded_send. done.
Qed.

End Review.

Section StatusMoves.
Variable deliver : Recipient -> Text -> option pystr.
Variable lower : pystr -> pystr.



End StatusMoves.


Lemma fresh_ids_demo st : fresh_ids (Demo.world st).
Proof.
  intros i [x Hx]. simpl in Hx.
  apply lookup_singleton_Some in Hx as [<- _]. simpl. lia.
Qed.



(** ** Approval *)

(** C2 at the failing input: the moderator approves the pending listing
    1.  The status becomes approved and one text is published to the
    channel, but [approve_ad_callback] passes no approver to
    [update_ad_status], so neither [approved_by] nor [approved_at] is
    written. *)
Theorem approve_records_no_approver :
  let w := Demo.world (py "pending") in
  let r := approve_ad_callback Demo.delivered (timedelta_days 11) 200 1 w in
  is_admin_role (users (db w) !! 200) = true /\
  ads (db r.1.2) !! 1 = Some (set_status (py "approved") (Demo.listing (py "pending"))) /\
  (approved_by <$> ads (db r.1.2) !! 1) = Some None /\
  (approved_at <$> ads (db r.1.2) !! 1) = Some None /\
  published r.2 = [channel_text (Demo.listing (py "pending"))].
Proof. vm_compute. repeat split. Qed.

(** ** The retention sweep *)

(** C3 at the failing input: listing 1 expires on day 17 and the sweep
    runs on day 18.  [cleanup_old_ads] compares [expires_at] with
    [now - 7 days], so the listing is kept; it goes only once it has been
    expired for more than a week. *)
Theorem sweep_keeps_listing_expired_yesterday :
  let d := Demo.store (py "pending") in
  let now := timedelta_days 18 in
  (expires_at <$> ads d !! 1) = Some (timedelta_days 17) /\
  timedelta_days 17 < now /\
  cleanup_old_ads now d = (0, d) /\
  ads (cleanup_old_ads (timedelta_days 24) d).2 !! 1
    = Some (Demo.listing (py "pending")) /\
  ads (cleanup_old_ads (timedelta_days 24 + 1) d).2 !! 1 = None.
Proof. vm_compute. repeat split. Qed.

(** ** Role checks *)

(** C4 at the failing input: Vali, whose role is user, sends the
    confirmation callback of a deletion.  [handle_delete_ad] refuses
    him, but [handle_confirm_delete] checks no role and deletes the
    listing. *)
Theorem confirm_delete_checks_no_role :
  let w := Demo.world (py "pending") in
  let handle' := handle Demo.delivered Demo.ascii_lower in
  is_admin_role (users (db w) !! 400) = false /\
  handle' (delete_callback 400 1) w
    = (Returned tt, w, [callback_answer 400 no_rights_text true]) /\
  ads (db w) !! 1 = Some (Demo.listing (py "pending")) /\
  ads (db (handle' (confirm_delete_callback 400 1) w).1.2) !! 1 = None /\
  (handle' (confirm_delete_callback 400 1) w).2
    = [edit_text 400 (deleted_admin_text (py "Python dasturchi")) None;
       send_message (Chat 300) (deleted_owner_text (py "Python dasturchi")) None].
Proof. vm_compute. repeat split. Qed.

(** ** The daily quota *)

(** C5.  If the user already has three or more listings created on the
    UTC day of the request, [create_ad_handler] answers with the daily
    limit text and returns: the world it leaves is the world it found, so
    the wizard state of the user (idle, if it was idle), the listings and
    the user's count for the day are what they were. *)
Theorem daily_limit_refuses_new_listing (now uid : Z) (w : World) :
  len (get_user_ads_today now uid (db w)) >= 3 ->
  let r := create_ad_handler now uid w in
  r = (Returned tt, w, [message_answer uid daily_limit_text None]) /\
  (forall deliver lower, step deliver lower (create_ad_button now uid) w = w) /\
  (state (context_of w uid) = None -> state (context_of r.1.2 uid) = None) /\
  ads (db r.1.2) = ads (db w) /\
  get_user_ads_today now uid (db r.1.2) = get_user_ads_today now uid (db w).
Proof.
  intros Hlimit r.
  assert (Hr : r = (Returned tt, w, [message_answer uid daily_limit_text None])).
  { subst r. unfold create_ad_handler. hrun.
    by rewrite bool_decide_eq_true_2 by done. }
  split; [done |]. split.
  - intros deliver lower. unfold step, handle. fold r. by rewrite Hr.
  - by rewrite Hr.
Qed.

Lemma daily_limit_refuses_new_listing_witness :
  len (get_user_ads_today (timedelta_days 10 + 5) 300 (db Demo.busy_world)) >= 3 /\
  create_ad_handler (timedelta_days 10 + 5) 300 Demo.busy_world
    = (Returned tt, Demo.busy_world,
       [message_answer 300 daily_limit_text None]).
Proof.
  assert (H : len (get_user_ads_today (timedelta_days 10 + 5) 300
                     (db Demo.busy_world)) >= 3)
    by (vm_compute; discriminate).
  split; [exact H |].
  exact (proj1 (daily_limit_refuses_new_listing
                  (timedelta_days 10 + 5) 300 Demo.busy_world H)).
Defined.

(** ** Length bounds *)

(** C7 as stated fails for the admin edit: the text has 101 characters,
    outside [5,100], yet [process_edit_title] measures it after
    [strip()], accepts it and overwrites the title of listing 1. *)
Lemma padded_title_is_accepted :
  let w := Demo.editing in
  let r := process_edit_title Demo.delivered 200 Demo.padded_title w in
  len Demo.padded_title = 101 /\
  (title <$> ads (db w) !! 1) = Some (py "Python dasturchi") /\
  (title <$> ads (db r.1.2) !! 1) = Some (py "Kassir") /\
  r.2 = [message_answer 200 (title_updated_text (py "Kassir")) None;
         send_message (Chat 300) (edited_owner_text (py "Kassir")) None].
Proof. vm_compute. repeat split. Qed.

(** C7, as the code has it.  In the wizard a text whose length is
    outside the bounds of the field (title 5..100, description 10..1000,
    contact 5..50) gets the validation text of that field and the world
    stays as it was, state and collected fields included.  In the admin
    edit of a title the length is that of the text with surrounding
    whitespace stripped: outside 5..100 the store is left unchanged, and
    an admin with an edit in progress gets the validation text while the
    conversation state stays as it was. *)
Theorem out_of_bounds_text_changes_nothing
    (deliver : Recipient -> Text -> option pystr)
    (uid : Z) (text : pystr) (w : World) :
  (len text < 5 \/ len text > 100 ->
     process_title uid text w
       = (Returned tt, w, [message_answer uid title_bounds_text None])) /\
  (len text < 10 \/ len text > 1000 ->
     process_description uid text w
       = (Returned tt, w, [message_answer uid description_bounds_text None])) /\
  (len text < 5 \/ len text > 50 ->
     process_contact uid text w
       = (Returned tt, w, [message_answer uid contact_bounds_text None])) /\
  (len (strip text) < 5 \/ len (strip text) > 100 ->
     db (process_edit_title deliver uid text w).1.2 = db w /\
     (is_admin_role (users (db w) !! uid) = true ->
      truthy_int (d_edit_ad_id (data (context_of w uid))) = true ->
      process_edit_title deliver uid text w
        = (Returned tt, w, [message_answer uid edit_title_bounds_text None]))).
Proof.
  assert (Hor : forall a b lo hi : Z, a = b -> (a < lo \/ b > hi) ->
            bool_decide (a < lo) || bool_decide (b > hi) = true).
  { intros a b lo hi -> [H | H].
    - by rewrite bool_decide_eq_true_2.
    - rewrite (bool_decide_eq_true_2 (b > hi)) by done. apply orb_true_r. }
  split_and!.
  - intros H. unfold process_title. by rewrite Hor.
  - intros H. unfold process_description. by rewrite Hor.
  - intros H. unfold process_contact. by rewrite Hor.
  - intros H. unfold process_edit_title. hrun.
    destruct (is_admin_role (users (db w) !! uid)); simpl; [| done].
    hrun.
    destruct (truthy_int (d_edit_ad_id (data (context_of w uid)))); simpl.
    + rewrite Hor by done. done.
    + hrun. done.
Qed.

Lemma out_of_bounds_text_changes_nothing_witness :
  process_title 300 (py "Ish") (Demo.world (py "pending"))
    = (Returned tt, Demo.world (py "pending"),
       [message_answer 300 title_bounds_text None]) /\
  process_edit_title Demo.delivered 200 (py "  Ish  ") Demo.editing
    = (Returned tt, Demo.editing,
       [message_answer 200 edit_title_bounds_text None]).
Proof.
  split.
  - apply (proj1 (out_of_bounds_text_changes_nothing Demo.delivered 300
                    (py "Ish") (Demo.world (py "pending")))).
    left. vm_compute. reflexivity.
  - apply (proj2 (out_of_bounds_text_changes_nothing Demo.delivered 200
                    (py "  Ish  ") Demo.editing)).
    + left. vm_compute. reflexivity.
    + vm_compute. reflexivity.
    + vm_compute. reflexivity.
Defined.

(** ** Demotion *)




(** ** Broadcast *)

Section BroadcastFacts.
Variable deliver : Recipient -> Text -> option pystr.
Variable lower : pystr -> pystr.

Lemma handle_confirm_broadcast_runs uid w :
  let d := data (context_of w uid) in
  let body := d_broadcast_text d in
  let users_ := default [] (d_users d) in
  handle_confirm_broadcast deliver lower uid w =
    (Returned tt,
     mkWorld (db w) (<[uid := idle]> (storage w)),
     edit_text uid (broadcast_sending_text (len users_)) None ::
     (users_ ≫= broadcast_calls deliver lower body) ++
     [edit_text uid
        (broadcast_done_text
           (len (filter (fun u => delivered_to deliver body u = true) users_))
           (len (filter (fun u => delivered_to deliver body u = false) users_)))
        None]).
Proof.
  simpl. unfold handle_confirm_broadcast. hrun.
  erewrite bind_returned by apply broadcast_loop_runs.
  hrun. unfold clear, put_context, after. simpl. do 2 f_equal.
Qed.

Lemma sends_app o1 o2 : sends (o1 ++ o2) = sends o1 ++ sends o2.
Proof. apply omap_app. Qed.

Lemma logged_app o1 o2 : logged (o1 ++ o2) = logged o1 ++ logged o2.
Proof. apply omap_app. Qed.






End BroadcastFacts.



(** * Further properties of the code *)

(** ** database.py *)

Section MoreStoreFacts.

Lemma size_filter_split {A} (P : Z * A -> Prop) `{!forall x, Decision (P x)}
    (m : gmap Z A) :
  size m = (size (filter P m) + size (filter (fun x => ~ P x) m))%nat.
Proof.
  rewrite <- (map_filter_union_complement P m) at 1.
  apply map_size_disj_union, map_disjoint_filter_complement.
Qed.

Lemma difference_filter {A} (P : Z * A -> Prop) `{!forall x, Decision (P x)}
    (m : gmap Z A) :
  m ∖ filter P m = filter (fun x => ~ P x) m.
Proof.
  apply map_eq. intros i. apply option_eq. intros x.
  rewrite lookup_difference_Some, map_lookup_filter_Some, map_lookup_filter_None.
  split.
  - intros [Hi [Hn | Hn]]; [congruence |]. split; [done |]. by apply Hn.
  - intros [Hi Hn]. split; [done |]. right. intros y Hy.
    assert (y = x) as -> by congruence. done.
Qed.

End MoreStoreFacts.

(** X1.  [create_default_superadmin] leaves a row under [SUPERADMIN_ID]:
    a new one with role superadmin when there was none, and otherwise the
    row it found, with whatever role that row has.  No other user and no
    listing is touched, and running it again changes nothing. *)
Theorem default_superadmin_bootstrap (now : Z) (d : Db) :
  let d' := create_default_superadmin now d in
  is_Some (users d' !! SUPERADMIN_ID) /\
  (users d !! SUPERADMIN_ID = None ->
     (role <$> users d' !! SUPERADMIN_ID) = Some (py "superadmin")) /\
  (is_Some (users d !! SUPERADMIN_ID) -> d' = d) /\
  (forall k, k <> SUPERADMIN_ID -> users d' !! k = users d !! k) /\
  ads d' = ads d /\
  (forall later, create_default_superadmin later d' = d').
Proof.
  simpl. unfold create_default_superadmin.
  destruct (users d !! SUPERADMIN_ID) as [u |] eqn:Hu.
  - split_and!; try done. intros later. by rewrite Hu.
  - unfold insert_user; simpl. rewrite lookup_insert_eq. split_and!; try done.
    all: try (by intros [? ?]).
    all: try (intros k Hk; by rewrite lookup_insert_ne).
    all: try (intros later; by rewrite lookup_insert_eq).
Qed.



(** X3.  [delete_ad] of an id that is not in the table answers [False]
    and leaves the store as it is.  For an id that is there it answers
    [True], the id reads as missing afterwards, every other listing and
    the users are as before, and a second deletion answers [False]. *)
Theorem delete_ad_removes_one_row (ad_id : Z) (d : Db) :
  (get_ad ad_id d = None -> delete_ad ad_id d = (false, d)) /\
  (is_Some (get_ad ad_id d) ->
     (delete_ad ad_id d).1 = true /\
     get_ad ad_id (delete_ad ad_id d).2 = None /\
     (forall i, i <> ad_id -> get_ad i (delete_ad ad_id d).2 = get_ad i d) /\
     users (delete_ad ad_id d).2 = users d /\
     size (ads d) = S (size (ads (delete_ad ad_id d).2)) /\
     (delete_ad ad_id (delete_ad ad_id d).2).1 = false).
Proof.
  unfold get_ad, delete_ad. split.
  - intros H. by rewrite H.
  - intros [ad Had]. rewrite Had. simpl. rewrite lookup_delete_eq.
    split_and!; try done.
    + intros i Hi. by rewrite lookup_delete_ne.
    + rewrite <- (insert_delete_id (ads d) ad_id ad Had) at 1.
      apply map_size_insert_None, lookup_delete_eq.
Qed.

Lemma delete_ad_removes_one_row_witness :
  delete_ad 9 (Demo.store (py "pending")) = (false, Demo.store (py "pending")) /\
  get_ad 1 (delete_ad 1 (Demo.store (py "pending"))).2 = None.
Proof.
  split.
  - apply (proj1 (delete_ad_removes_one_row 9 (Demo.store (py "pending")))).
    reflexivity.
  - apply (proj2 (delete_ad_removes_one_row 1 (Demo.store (py "pending")))).
    by eexists.
Defined.

(** X4.  [update_ad] of a missing id answers [False] and changes
    nothing.  On a listing that exists it overwrites the title, the
    description and the contact for which a non-empty text is given and
    keeps the ones for which the argument is [None] or the empty string;
    owner, category, status, dates and approver are never written, and
    no other listing is touched. *)
Theorem update_ad_writes_given_fields
    (ad_id : Z) (t de co : option pystr) (d : Db) :
  (get_ad ad_id d = None -> update_ad ad_id t de co d = (false, d)) /\
  (forall ad, get_ad ad_id d = Some ad ->
     exists ad',
       update_ad ad_id t de co d = (true, with_ads (<[ad_id := ad']> (ads d)) d) /\
       title ad' = (if truthy_str t then default [] t else title ad) /\
       description ad' = (if truthy_str de then default [] de else description ad) /\
       contact ad' = (if truthy_str co then default [] co else contact ad) /\
       user_id ad' = user_id ad /\ category ad' = category ad /\
       status ad' = status ad /\ created_at ad' = created_at ad /\
       expires_at ad' = expires_at ad /\ approved_by ad' = approved_by ad /\
       approved_at ad' = approved_at ad /\
       (forall i, i <> ad_id ->
          get_ad i (update_ad ad_id t de co d).2 = get_ad i d)).
Proof.
  unfold get_ad, update_ad. split.
  - intros H. by rewrite H.
  - intros ad Had. rewrite Had. eexists. split; [reflexivity |].
    split_and!; try (by destruct t as [[|] |], de as [[|] |], co as [[|] |]).
    intros i Hi. simpl. by rewrite lookup_insert_ne.
Qed.

Lemma update_ad_writes_given_fields_witness :
  exists ad',
    update_ad 1 (Some []) None (Some (py "@kassir")) (Demo.store (py "pending"))
      = (true, with_ads (<[1 := ad']> (ads (Demo.store (py "pending"))))
                        (Demo.store (py "pending"))) /\
    title ad' = py "Python dasturchi" /\ contact ad' = py "@kassir".
Proof.
  destruct (proj2 (update_ad_writes_given_fields 1 (Some []) None
                     (Some (py "@kassir")) (Demo.store (py "pending")))
              (Demo.listing (py "pending")) eq_refl)
    as (ad' & Hrun & Ht & _ & Hc & _).
  exists ad'. split_and!; assumption.
Defined.

(** X5.  [update_user_role] of an unknown [telegram_id] answers [False]
    and changes nothing.  For a known user it answers [True] and writes
    the role, whatever it is given: the row keeps its id, name, creation
    time and blocked flag, no other user and no listing is touched, and
    writing the role the user already has leaves the store as it was. *)
Theorem update_user_role_writes_role (telegram_id : Z) (r : pystr) (d : Db) :
  (get_user telegram_id d = None -> update_user_role telegram_id r d = (false, d)) /\
  (forall u, get_user telegram_id d = Some u ->
     let d' := (update_user_role telegram_id r d).2 in
     (update_user_role telegram_id r d).1 = true /\
     get_user telegram_id d'
       = Some (mkUser (id u) (full_name u) r (user_created_at u) (is_blocked u)) /\
     (forall k, k <> telegram_id -> get_user k d' = get_user k d) /\
     ads d' = ads d /\
     (role u = r -> d' = d)).
Proof.
  unfold get_user, update_user_role. split.
  - intros H. by rewrite H.
  - intros u Hu. rewrite Hu. simpl. rewrite lookup_insert_eq.
    split_and!; try done.
    + intros k Hk. by rewrite lookup_insert_ne.
    + intros <-. unfold with_users. rewrite insert_id; [by destruct d |].
      by destruct u.
Qed.

Lemma update_user_role_writes_role_witness :
  (update_user_role 300 (py "user") (Demo.store (py "pending"))).2
    = Demo.store (py "pending").
Proof.
  apply (proj2 (update_user_role_writes_role 300 (py "user")
                  (Demo.store (py "pending"))) Demo.ali).
  - reflexivity.
  - reflexivity.
Defined.

(** X6.  [get_admins] returns exactly the users whose role is admin or
    superadmin, each of them once. *)
Theorem get_admins_lists_admins_once (d : Db) :
  NoDup (get_admins d).*1 /\
  (forall k u, (k, u) ∈ get_admins d <->
     get_user k d = Some u /\ (role u = py "admin" \/ role u = py "superadmin")).
Proof.
  unfold get_admins, get_user. split.
  - apply NoDup_fst_map_to_list.
  - intros k u. rewrite elem_of_map_to_list, map_lookup_filter_Some. simpl.
    rewrite !elem_of_cons, elem_of_nil. tauto.
Qed.

(** X7.  A listing created for a user counts towards that user's quota
    of the day it is created on, and towards nothing else: when the next
    id is free, [get_user_ads_today] of the owner at a clock value of the
    same UTC day has one row more than before, while the count of any
    other user, and of any other day, is what it was. *)
Theorem create_ad_counts_for_owner_today
    (now now' uid uid' : Z) (t de c co st : pystr) (d : Db) :
  ads d !! next_ad_id d = None ->
  let d' := (create_ad now uid t de c co st d).2 in
  len (get_user_ads_today now' uid' d') =
    len (get_user_ads_today now' uid' d) +
    (if bool_decide (uid' = uid /\ date now' = date now) then 1 else 0).
Proof.
  intros Hfree d'. subst d'. unfold get_user_ads_today, len.
  rewrite !length_map_to_list. simpl.
  case_bool_decide as Hsame.
  - rewrite map_filter_insert_True by (simpl; destruct Hsame; by split).
    rewrite map_size_insert_None; [lia |].
    apply map_lookup_filter_None. left. done.
  - rewrite map_filter_insert_False by (simpl; intros [? ?]; by apply Hsame).
    rewrite delete_id by done. lia.
Qed.

Lemma create_ad_counts_for_owner_today_witness :
  len (get_user_ads_today (timedelta_days 10 + 7) 300
         (create_ad (timedelta_days 10) 300 (py "Kassir") (py "Kassir kerak")
            (py "IT") (py "@kassir") (py "pending")
            (Demo.store (py "pending"))).2)
    = len (get_user_ads_today (timedelta_days 10 + 7) 300
             (Demo.store (py "pending"))) +
      (if bool_decide (300 = 300 /\
                       date (timedelta_days 10 + 7) = date (timedelta_days 10))
       then 1 else 0).
Proof.
  apply (create_ad_counts_for_owner_today (timedelta_days 10)
           (timedelta_days 10 + 7) 300 300).
  reflexivity.
Defined.

(** X8.  [cleanup_old_ads] keeps a listing exactly when its [expires_at]
    is not earlier than seven days before the clock value; the status
    plays no part.  It returns the number of rows it removed and leaves
    the users alone. *)
Theorem cleanup_old_ads_removes_week_expired (now : Z) (d : Db) :
  (forall i ad,
     get_ad i (cleanup_old_ads now d).2 = Some ad <->
     get_ad i d = Some ad /\ now - timedelta_days 7 <= expires_at ad) /\
  Z.of_nat (size (ads d))
    = (cleanup_old_ads now d).1 + Z.of_nat (size (ads (cleanup_old_ads now d).2)) /\
  users (cleanup_old_ads now d).2 = users d.
Proof.
  split_and!.
  - intros i ad. apply cleanup_old_ads_lookup.
  - unfold cleanup_old_ads, old_ads. simpl.
    rewrite difference_filter.
    rewrite (size_filter_split
               (fun kv : Z * Ad => expires_at kv.2 < now - timedelta_days 7)
               (ads d)) at 1.
    lia.
  - done.
Qed.

(** ** main.py: the wizard *)

Section WizardFacts.
Variable deliver : Recipient -> Text -> option pystr.
Variable lower : pystr -> pystr.

Lemma context_of_insert d s uid c :
  context_of (mkWorld d (<[uid := c]> s)) uid = c.
Proof. unfold context_of. simpl. by rewrite lookup_insert_eq. Qed.

Lemma in_bounds lo hi (x : Z) :
  lo <= x <= hi -> bool_decide (x < lo) || bool_decide (x > hi) = false.
Proof. intros H. by rewrite !bool_decide_eq_false_2 by lia. Qed.








End WizardFacts.



Section CategoryFacts.
Variable deliver : Recipient -> Text -> option pystr.

Lemma getitem_None {A} (l : list A) (i : Z) :
  getitem l i = None <-> i < - len l \/ len l <= i.
Proof.
  unfold getitem, len. case_bool_decide as H0.
  - rewrite lookup_ge_None. lia.
  - case_bool_decide as H1.
    + rewrite lookup_ge_None. lia.
    + split; [lia | done].
Qed.

Lemma process_category_raises now uid i w :
  getitem CATEGORIES i = None \/
  d_title (data (context_of w uid)) = None \/
  d_description (data (context_of w uid)) = None \/
  d_contact (data (context_of w uid)) = None ->
  exists e, process_category deliver now uid i w = (Raised e, w, []).
Proof.
  intros H. unfold process_category, subscript.
  destruct (getitem CATEGORIES i) as [c |]; [| rewrite bind_raise; eauto].
  hrun.
  destruct (d_title _) as [t |]; [| rewrite bind_raise; eauto]. hrun.
  destruct (d_description _) as [de |]; [| rewrite bind_raise; eauto]. hrun.
  destruct (d_contact _) as [co |]; [| rewrite bind_raise; eauto].
  destruct H as [? | [? | [? | ?]]]; discriminate.
Qed.

End CategoryFacts.

(** X10.  A category callback creates nothing unless it is complete: an
    index outside -8..7 (a negative one counts from the end of
    [CATEGORIES]) raises, and so does a callback that finds no title, no
    description or no contact in the conversation, as when the button is
    pressed outside the wizard.  The exception leaves the store and the
    conversation as they were and nothing is sent. *)
Theorem category_callback_needs_wizard_data
    (deliver : Recipient -> Text -> option pystr) (now uid i : Z) (w : World) :
  (getitem CATEGORIES i = None <-> i < -8 \/ 8 <= i) /\
  (getitem CATEGORIES i = None \/
   d_title (data (context_of w uid)) = None \/
   d_description (data (context_of w uid)) = None \/
   d_contact (data (context_of w uid)) = None ->
   exists e, process_category deliver now uid i w = (Raised e, w, [])).
Proof.
  split.
  - rewrite getitem_None. assert (len CATEGORIES = 8) as -> by reflexivity. lia.
  - apply process_category_raises.
Qed.

Lemma category_callback_needs_wizard_data_witness :
  exists e,
    process_category Demo.delivered 0 300 5 (Demo.world (py "pending"))
      = (Raised e, Demo.world (py "pending"), []).
Proof.
  apply (proj2 (category_callback_needs_wizard_data Demo.delivered 0 300 5
                  (Demo.world (py "pending")))).
  right. left. reflexivity.
Defined.

Section NotifyFacts.
Variable deliver : Recipient -> Text -> option pystr.

(** The log line a failed notification of an admin leaves. *)
Definition notify_log (t : Text) (admin : Z * User) : option LogLine :=
  match deliver (Chat admin.1) t with
  | Some m => Some (failed_to_notify_admin admin.1 m)
  | None => None
  end.

Lemma notify_loop_runs t m admins w :
  exists o,
    foldr (fun admin (rest : Handler unit) =>
             try_except
               (bot_send_message deliver (Chat admin.1) t m)
               (fun e => emit (log (failed_to_notify_admin admin.1 (str_of e))));;
             rest)
          pass admins w = (Returned tt, w, o) /\
    sends o = (fun a => Chat a.1) <$> admins /\
    logged o = omap (notify_log t) admins.
Proof.
  induction admins as [| a admins (o & Hrun & Hsends & Hlog)].
  - by exists [].
  - cbn [foldr].
    erewrite bind_returned
      by (apply (logged_send deliver (Chat a.1) t m
                   (failed_to_notify_admin a.1))).
    rewrite Hrun. unfold after. cbn [fst snd].
    eexists. split; [reflexivity |].
    rewrite sends_app, logged_app, Hsends, Hlog.
    rewrite fmap_cons. cbn [omap list_omap]. unfold notify_log at 2.
    destruct (deliver (Chat a.1) t); done.
Qed.

End NotifyFacts.

(** X11.  [notify_admins_about_new_ad] for a listing whose owner is a
    known user sends the listing once to every admin and superadmin of
    [get_admins], in that order.  A send that fails is written to the log
    and the loop goes on with the next admin; the function returns and
    changes nothing.  For a listing that does not exist it does nothing
    at all. *)
Theorem new_ad_is_sent_to_every_admin
    (deliver : Recipient -> Text -> option pystr) (ad_id : Z) (w : World) :
  (get_ad ad_id (db w) = None ->
     notify_admins_about_new_ad deliver ad_id w = (Returned tt, w, [])) /\
  (forall ad owner,
     get_ad ad_id (db w) = Some ad ->
     get_user (user_id ad) (db w) = Some owner ->
     let r := notify_admins_about_new_ad deliver ad_id w in
     r.1 = (Returned tt, w) /\
     sends r.2 = (fun a => Chat a.1) <$> get_admins (db w) /\
     logged r.2
       = omap (notify_log deliver (new_ad_text (full_name owner) ad))
              (get_admins (db w))).
Proof.
  unfold notify_admins_about_new_ad. split.
  - intros Hnone. rewrite bind_query, Hnone. done.
  - intros ad owner Had Howner. cbv zeta.
    rewrite bind_query, Had, !bind_query, Howner, bind_mret.
    destruct (notify_loop_runs deliver (new_ad_text (full_name owner) ad)
                (Some (ad_action_keyboard ad_id)) (get_admins (db w)) w)
      as (o & -> & Hsends & Hlog).
    done.
Qed.

Lemma new_ad_is_sent_to_every_admin_witness :
  sends (notify_admins_about_new_ad Demo.flaky 1 (Demo.world (py "pending"))).2
    = (fun a => Chat a.1) <$> get_admins (db (Demo.world (py "pending"))).
Proof.
  apply (proj2 (new_ad_is_sent_to_every_admin Demo.flaky 1
                  (Demo.world (py "pending")))
           (Demo.listing (py "pending")) Demo.ali eq_refl eq_refl).
Defined.

(** X12.  When the sender of the category callback has no row in
    [users] (the start command was never sent), the listing is stored and
    the conversation cleared all the same, the sender gets the
    confirmation, and then the notification fails on the missing owner:
    the handler raises and no admin is told about the listing. *)
Theorem listing_of_unknown_user_is_not_announced
    (deliver : Recipient -> Text -> option pystr)
    (now uid i : Z) (c t de co : pystr) (w : World) :
  getitem CATEGORIES i = Some c ->
  d_title (data (context_of w uid)) = Some t ->
  d_description (data (context_of w uid)) = Some de ->
  d_contact (data (context_of w uid)) = Some co ->
  get_user uid (db w) = None ->
  process_category deliver now uid i w =
    (Raised (AttributeError "full_name"),
     mkWorld (create_ad now uid t de c co (py "pending") (db w)).2
             (<[uid := idle]> (storage w)),
     [edit_text uid (ad_created_text t c) None]).
Proof.
  intros Hc Ht Hde Hco Huser. unfold process_category, subscript.
  rewrite Hc. hrun. rewrite Ht. hrun. rewrite Hde. hrun. rewrite Hco. hrun.
  unfold notify_admins_about_new_ad. hrun.
  unfold get_ad, get_user in *. cbn [create_ad snd fst db ads users].
  rewrite lookup_insert_eq. hrun. cbn [user_id db users].
  rewrite Huser. hrun. reflexivity.
Qed.

Lemma listing_of_unknown_user_is_not_announced_witness :
  let w := mkWorld (Demo.store (py "pending"))
             {[ 999 := mkContext (Some waiting_for_category)
                         (mkData (Some (py "Kassir")) (Some (py "Kassir kerak"))
                                 (Some (py "@kassir")) None None None) ]} in
  sends (process_category Demo.delivered 0 999 (-1) w).2 = [].
Proof.
  intros w.
  rewrite (listing_of_unknown_user_is_not_announced Demo.delivered 0 999 (-1)
             (128295%N :: py " Xizmat") (py "Kassir") (py "Kassir kerak")
             (py "@kassir") w);
    reflexivity.
Defined.

(** ** main.py: the start command *)


(** ** Role checks and missing listings *)





(** ** Reviews *)

Section ReviewFacts.
Variable deliver : Recipient -> Text -> option pystr.


Lemma reject_ad_callback_runs now uid ad_id ad w :
  is_admin_role (get_user uid (db w)) = true ->
  get_ad ad_id (db w) = Some ad ->
  reject_ad_callback deliver now uid ad_id w =
    (Returned tt,
     mkWorld (with_ads (<[ad_id := set_status (py "rejected") ad]> (ads (db w)))
                       (db w))
             (storage w),
     [edit_text uid (rejected_admin_text (title ad)) None;
      send_message (Chat (user_id ad)) (rejected_owner_text (title ad)) None]).
Proof.
  intros Hrole Had. unfold reject_ad_callback. hrun. rewrite Hrole.
  cbn [negb]. hrun. rewrite Had. hrun.
  unfold update_ad_status. unfold get_ad in Had. rewrite Had.
  cbn [truthy_int andb fst snd]. rewrite andb_false_r. hrun.
  by rewrite guarded_send.
Qed.

End ReviewFacts.



(** X17.  A rejection by an admin of a listing that exists writes the
    status rejected and nothing else: the recorded approver and approval
    time, the texts and the dates stay.  Nothing is published; the
    owner is notified once, and the handler returns whether or not that
    message is delivered. *)
Theorem rejection_notifies_owner_only
    (deliver : Recipient -> Text -> option pystr)
    (now uid ad_id : Z) (ad : Ad) (w : World) :
  is_admin_role (get_user uid (db w)) = true ->
  get_ad ad_id (db w) = Some ad ->
  let r := reject_ad_callback deliver now uid ad_id w in
  r.1.1 = Returned tt /\
  get_ad ad_id (db r.1.2)
    = Some (mkAd (user_id ad) (title ad) (description ad) (category ad)
                 (contact ad) (py "rejected") (created_at ad) (expires_at ad)
                 (approved_by ad) (approved_at ad)) /\
  (forall i, i <> ad_id -> get_ad i (db r.1.2) = get_ad i (db w)) /\
  published r.2 = [] /\
  sends r.2 = [Chat (user_id ad)].
Proof.
  intros Hrole Had r. subst r.
  rewrite (reject_ad_callback_runs deliver now uid ad_id ad w Hrole Had).
  unfold get_ad. simpl. rewrite lookup_insert_eq. split_and!; try done.
  intros i Hi. by rewrite lookup_insert_ne.
Qed.

Lemma rejection_notifies_owner_only_witness :
  sends (reject_ad_callback Demo.flaky 0 200 1 (Demo.world (py "approved"))).2
  = [Chat 300].
Proof.
  apply (rejection_notifies_owner_only Demo.flaky 0 200 1
           (Demo.listing (py "approved")) (Demo.world (py "approved"))
           eq_refl eq_refl).
Defined.

(** ** The statuses a listing can have *)

(** Every listing is pending, approved or rejected. *)
Definition legal_statuses (w : World) : Prop :=
  forall i ad, ads (db w) !! i = Some ad ->
    status ad ∈ [py "pending"; py "approved"; py "rejected"].

Section LegalStatuses.
Variable deliver : Recipient -> Text -> option pystr.
Variable lower : pystr -> pystr.

Lemma legal_insert w w' i ad :
  fresh_ids w -> legal_statuses w ->
  ads (db w') = <[i := ad]> (ads (db w)) ->
  next_ad_id (db w) <= next_ad_id (db w') ->
  i < next_ad_id (db w') ->
  status ad ∈ [py "pending"; py "approved"; py "rejected"] ->
  fresh_ids w' /\ legal_statuses w'.
Proof.
  intros Hfresh Hlegal Hads Hnext Hi Hst. unfold fresh_ids, legal_statuses.
  rewrite Hads. split.
  - intros j [x Hx]. destruct (decide (i = j)) as [<- | Hne]; [done |].
    rewrite lookup_insert_ne in Hx by done.
    assert (j < next_ad_id (db w)) by (apply Hfresh; by eexists). lia.
  - intros j x Hx. destruct (decide (i = j)) as [<- | Hne].
    + rewrite lookup_insert_eq in Hx. by injection Hx as <-.
    + rewrite lookup_insert_ne in Hx by done. by eapply Hlegal.
Qed.

Lemma legal_subset w w' :
  fresh_ids w -> legal_statuses w ->
  (forall i ad, ads (db w') !! i = Some ad -> ads (db w) !! i = Some ad) ->
  next_ad_id (db w') = next_ad_id (db w) ->
  fresh_ids w' /\ legal_statuses w'.
Proof.
  intros Hfresh Hlegal Hsub Hnext. unfold fresh_ids, legal_statuses. split.
  - intros j [x Hx]. rewrite Hnext. apply Hfresh. exists x. by apply Hsub.
  - intros j x Hx. eapply Hlegal. by apply Hsub.
Qed.

Lemma step_keeps_legal op w :
  fresh_ids w -> legal_statuses w ->
  fresh_ids (step deliver lower op w) /\
  legal_statuses (step deliver lower op w).
Proof.
  intros Hfresh Hlegal.
  assert (Hsame : forall w', same_ads w w' ->
            fresh_ids w' /\ legal_statuses w').
  { intros w' [Hads Hnext]. apply (legal_subset w w'); try done.
    intros i ad. by rewrite Hads. }
  pose proof (other_updates_keep_ads deliver lower op w) as Hother.
  destruct op; try (by apply Hsame).
  - destruct (category_callback_ads deliver lower now uid category_index w)
      as [H | (ad0 & Hst & Hads & Hnext)]; [by apply Hsame |].
    apply (legal_insert w _ (next_ad_id (db w)) ad0); try done; try lia.
    rewrite Hst. set_solver.
  - destruct (review_ads deliver lower true now uid ad_id w)
      as [H | (_ & ad0 & Had0 & Hads & Hnext)]; [by apply Hsame |].
    cbv zeta in Hads, Hnext.
    apply (legal_insert w _ ad_id (set_status (py "approved") ad0));
      try done; try lia.
    + rewrite Hnext. apply Hfresh. by eexists.
    + simpl. set_solver.
  - destruct (review_ads deliver lower false now uid ad_id w)
      as [H | (_ & ad0 & Had0 & Hads & Hnext)]; [by apply Hsame |].
    cbv zeta in Hads, Hnext.
    apply (legal_insert w _ ad_id (set_status (py "rejected") ad0));
      try done; try lia.
    + rewrite Hnext. apply Hfresh. by eexists.
    + simpl. set_solver.
  - destruct (sweep_ads deliver lower now w) as [Hads Hnext].
    apply (legal_subset w); try done.
    intros i ad. rewrite Hads. by intros [? _]%lookup_difference_Some.
  - destruct (edit_title_text_ads deliver lower uid text w)
      as [H | (ad_id & ad0 & t & Had0 & Hads & Hnext)]; [by apply Hsame |].
    apply (legal_insert w _ ad_id (set_title t ad0)); try done; try lia.
    + rewrite Hnext. apply Hfresh. by eexists.
    + simpl. by eapply Hlegal.
  - destruct (confirm_delete_ads deliver lower uid ad_id w)
      as [H | [Hads Hnext]]; [by apply Hsame |].
    apply (legal_subset w); try done.
    intros i ad. rewrite Hads. by intros [_ ?]%lookup_delete_Some.
Qed.

End LegalStatuses.

(** X18.  Whatever updates arrive, in whatever order and from whomever,
    a listing never has a status other than pending, approved or
    rejected: if that holds of a world whose listing ids lie below the
    sequence, it holds after every sequence of updates.  It holds of the
    freshly initialised database, hence of every world the bot reaches
    from it. *)
Theorem statuses_stay_legal
    (deliver : Recipient -> Text -> option pystr) (lower : pystr -> pystr)
    (ops : list Op) (w : World) :
  fresh_ids w -> legal_statuses w ->
  fresh_ids (run deliver lower ops w) /\
  legal_statuses (run deliver lower ops w) /\
  (forall now, legal_statuses
                 (run deliver lower ops (mkWorld (init_db now) ∅))).
Proof.
  assert (Hrun : forall ops w, fresh_ids w -> legal_statuses w ->
            fresh_ids (run deliver lower ops w) /\
            legal_statuses (run deliver lower ops w)).
  { clear. induction ops as [| op ops IH]; intros w Hfresh Hlegal; [done |].
    change (run deliver lower (op :: ops) w)
      with (run deliver lower ops (step deliver lower op w)).
    destruct (step_keeps_legal deliver lower op w Hfresh Hlegal).
    by apply IH. }
  intros Hfresh Hlegal. split_and!; try (by apply Hrun).
  intros now.
  assert (Hempty : ads (init_db now) = ∅).
  { unfold init_db, create_default_superadmin. cbn [users].
    by rewrite lookup_empty. }
  apply Hrun.
  - intros i [x Hx]. cbn [db] in Hx. rewrite Hempty in Hx.
    by rewrite lookup_empty in Hx.
  - intros i x Hx. cbn [db] in Hx. rewrite Hempty in Hx.
    by rewrite lookup_empty in Hx.
Qed.

Lemma statuses_stay_legal_witness :
  legal_statuses
    (run Demo.delivered Demo.ascii_lower
       [approve_callback 0 200 1; reject_callback 0 200 1;
        confirm_delete_callback 400 1]
       (Demo.world (py "pending"))).
Proof.
  assert (Hlegal : legal_statuses (Demo.world (py "pending"))).
  { intros i ad Hi. cbn [Demo.world Demo.store db ads] in Hi.
    apply lookup_singleton_Some in Hi as [_ <-].
    cbn [Demo.listing status]. set_solver. }
  exact (proj1 (proj2
           (statuses_stay_legal Demo.delivered Demo.ascii_lower
              [approve_callback 0 200 1; reject_callback 0 200 1;
               confirm_delete_callback 400 1]
              (Demo.world (py "pending"))
              (fresh_ids_demo (py "pending")) Hlegal))).
Defined.

(** ** admin.py: roles *)

Section RoleFacts.
Variable deliver : Recipient -> Text -> option pystr.

Lemma process_new_admin_id_promotes uid target u w :
  get_user target (db w) = Some u ->
  role u ∉ [py "admin"; py "superadmin"] ->
  process_new_admin_id deliver uid (Some target) w =
    (Returned tt,
     mkWorld (with_users (<[target := set_role (py "admin") u]> (users (db w)))
                         (db w))
             (<[uid := idle]> (storage w)),
     [message_answer uid (admin_added_text (full_name u) target) None;
      send_message (Chat target) promoted_text None]).
Proof.
  intros Hu Hrole. unfold process_new_admin_id. hrun. rewrite Hu.
  rewrite bool_decide_eq_false_2 by done. hrun.
  unfold update_user_role. unfold get_user in Hu. rewrite Hu.
  cbn [fst snd]. rewrite bind_assoc. hrun. reflexivity.
Qed.

End RoleFacts.



(** X20.  Promotion and demotion undo each other on the users table: a
    plain user made admin by [process_new_admin_id] and then removed by a
    superadmin through [handle_remove_admin] has the row it started with,
    and so has everybody else. *)
Theorem demotion_undoes_promotion
    (deliver : Recipient -> Text -> option pystr)
    (uid caller target : Z) (u : User) (w : World) :
  get_user target (db w) = Some u ->
  role u = py "user" ->
  is_superadmin_role (get_user caller (db w)) = true ->
  let w1 := (process_new_admin_id deliver uid (Some target) w).1.2 in
  let w2 := (handle_remove_admin deliver caller target w1).1.2 in
  (role <$> get_user target (db w1)) = Some (py "admin") /\
  db w2 = db w.
Proof.
  intros Hu Hrole Hcaller w1 w2.
  assert (Hplain : role u ∉ [py "admin"; py "superadmin"]).
  { rewrite Hrole. intros H.
    repeat (apply elem_of_cons in H as [H | H]; [discriminate |]).
    by apply elem_of_nil in H. }
  assert (Hne : caller <> target).
  { intros ->. unfold get_user in *. rewrite Hu in Hcaller. simpl in Hcaller.
    rewrite Hrole in Hcaller. discriminate. }
  assert (Hw1 : w1 = mkWorld
            (with_users (<[target := set_role (py "admin") u]> (users (db w)))
                        (db w))
            (<[uid := idle]> (storage w))).
  { unfold w1.
    by rewrite (process_new_admin_id_promotes deliver uid target u w Hu Hplain). }
  split.
  - rewrite Hw1. unfold get_user. simpl. by rewrite lookup_insert_eq.
  - unfold w2. rewrite Hw1. unfold handle_remove_admin. hrun.
    unfold get_user in *. cbn [db users with_users].
    rewrite lookup_insert_ne by done. rewrite Hcaller. cbn [negb]. hrun.
    cbn [db users with_users]. rewrite lookup_insert_eq.
    rewrite bool_decide_eq_false_2 by (simpl; discriminate).
    hrun. unfold update_user_role. cbn [db users with_users].
    rewrite lookup_insert_eq. cbn [fst snd]. hrun.
    rewrite handle_list_admins_world. cbn [db].
    unfold with_users. cbn [users ads next_user_id next_ad_id settings].
    rewrite insert_insert_eq.
    rewrite insert_id; [by destruct (db w) |].
    rewrite Hu. f_equal. destruct u. simpl in *. by subst.
Qed.

Lemma demotion_undoes_promotion_witness :
  db (handle_remove_admin Demo.delivered SUPERADMIN_ID 300
        (process_new_admin_id Demo.delivered SUPERADMIN_ID (Some 300)
           (Demo.world (py "pending"))).1.2).1.2
  = db (Demo.world (py "pending")).
Proof.
  apply (demotion_undoes_promotion Demo.delivered SUPERADMIN_ID SUPERADMIN_ID
           300 Demo.ali (Demo.world (py "pending")) eq_refl eq_refl eq_refl).
Defined.

(** ** admin.py: broadcast and edit *)

(** X21.  A broadcast is sent at most once per confirmation screen:
    [handle_confirm_broadcast] and [handle_cancel_broadcast] both clear
    the conversation, so a confirmation pressed again after either of
    them finds no stored users and sends to nobody.  Cancelling itself
    sends nothing and leaves the store alone. *)
Theorem broadcast_is_not_repeated
    (deliver : Recipient -> Text -> option pystr) (lower : pystr -> pystr)
    (uid : Z) (w : World) :
  let confirmed := (handle_confirm_broadcast deliver lower uid w).1.2 in
  let cancelled := (handle_cancel_broadcast uid w).1.2 in
  context_of confirmed uid = idle /\
  context_of cancelled uid = idle /\
  sends (handle_confirm_broadcast deliver lower uid confirmed).2 = [] /\
  sends (handle_confirm_broadcast deliver lower uid cancelled).2 = [] /\
  sends (handle_cancel_broadcast uid w).2 = [] /\
  db cancelled = db w.
Proof.
  cbv zeta.
  assert (Hcancel : handle_cancel_broadcast uid w =
            (Returned tt, mkWorld (db w) (<[uid := idle]> (storage w)),
             [edit_text uid broadcast_cancelled_text None])).
  { unfold handle_cancel_broadcast. hrun. reflexivity. }
  rewrite Hcancel, (handle_confirm_broadcast_runs deliver lower uid w).
  cbn [fst snd].
  rewrite !handle_confirm_broadcast_runs, !context_of_insert.
  cbn [fst snd data d_users d_broadcast_text idle no_data default db].
  split_and!; done.
Qed.

(** X22.  A new title from an admin with an edit in progress, within
    5..100 characters once stripped, is stored stripped: the listing gets
    that title and keeps everything else, its status included, the
    conversation is cleared and the owner is told once.  If the listing
    has been deleted in the meantime the admin gets the failure text,
    nothing is stored, and the conversation is cleared as well. *)
Theorem title_edit_stores_stripped_text
    (deliver : Recipient -> Text -> option pystr)
    (uid ad_id : Z) (text : pystr) (w : World) :
  is_admin_role (get_user uid (db w)) = true ->
  d_edit_ad_id (data (context_of w uid)) = Some ad_id ->
  ad_id <> 0 ->
  5 <= len (strip text) <= 100 ->
  let r := process_edit_title deliver uid text w in
  r.1.1 = Returned tt /\
  context_of r.1.2 uid = idle /\
  (forall ad, get_ad ad_id (db w) = Some ad ->
     get_ad ad_id (db r.1.2)
       = Some (mkAd (user_id ad) (strip text) (description ad) (category ad)
                    (contact ad) (status ad) (created_at ad) (expires_at ad)
                    (approved_by ad) (approved_at ad)) /\
     (forall i, i <> ad_id -> get_ad i (db r.1.2) = get_ad i (db w)) /\
     sends r.2 = [Chat (user_id ad)]) /\
  (get_ad ad_id (db w) = None ->
     db r.1.2 = db w /\ r.2 = [message_answer uid failure_text None]).
Proof.
  intros Hrole Hid Hnz Hlen. cbv zeta. unfold process_edit_title. hrun.
  unfold get_user in Hrole. rewrite Hrole. cbn [negb]. hrun. rewrite Hid.
  change (default 0 (Some ad_id)) with ad_id.
  cbn [truthy_int]. rewrite (proj2 (Z.eqb_neq ad_id 0) Hnz).
  cbn [negb]. rewrite in_bounds by done. hrun.
  destruct (strip text) as [| c s] eqn:Hstrip;
    [unfold len in Hlen; simpl in Hlen; lia |].
  unfold update_ad, get_ad.
  destruct (ads (db w) !! ad_id) as [ad |] eqn:Had.
  - cbn [assign_if truthy_str fst snd]. rewrite bind_assoc. hrun.
    unfold get_ad. cbn [db ads with_ads]. rewrite lookup_insert_eq.
    hrun. unfold clear, put_context, after.
    cbn [fst snd db ads with_ads storage app].
    rewrite context_of_insert, lookup_insert_eq.
    split_and!; try done.
    intros ad0 [= <-]. split_and!; try done.
    intros i Hi. by rewrite lookup_insert_ne.
  - cbn [fst snd]. hrun. unfold clear, put_context, after.
    cbn [fst snd db storage app]. rewrite context_of_insert.
    split_and!; done.
Qed.

Lemma title_edit_stores_stripped_text_witness :
  context_of
    (process_edit_title Demo.delivered 200 Demo.padded_title Demo.editing).1.2
    200 = idle.
Proof.
  assert (H : 5 <= len (strip Demo.padded_title) <= 100)
    by (vm_compute; split; discriminate).
  assert (Hnz : 1 <> 0) by discriminate.
  exact (proj1 (proj2
           (title_edit_stores_stripped_text Demo.delivered 200 1
              Demo.padded_title Demo.editing eq_refl eq_refl Hnz H))).
Defined.

(** ** utils.py: text helpers *)

Section TextFacts.
Import BotUtils.

Lemma len_app {A} (l1 l2 : list A) : len (l1 ++ l2) = len l1 + len l2.
Proof. unfold len. rewrite length_app. lia. Qed.

Lemma len_take {A} (n : nat) (l : list A) :
  len (take n l) = Z.min (Z.of_nat n) (len l).
Proof. unfold len. rewrite length_take. lia. Qed.

Lemma replace_char_app old new s1 s2 :
  replace_char old new (s1 ++ s2)
    = replace_char old new s1 ++ replace_char old new s2.
Proof. unfold replace_char. apply bind_app. Qed.

Lemma replace_char_absent old new s :
  old ∉ s -> replace_char old new s = s.
Proof.
  unfold replace_char. induction s as [| c s IH]; [done |].
  intros Hnot. apply not_elem_of_cons in Hnot as [Hne Hnot].
  change ((c :: s) ≫= _) with
    ((if (c =? old)%N then new else [c]) ++
     (s ≫= fun c => if (c =? old)%N then new else [c])).
  rewrite IH by done. destruct (N.eqb_spec c old); [congruence | done].
Qed.

Lemma replace_char_elem old new s x :
  x ∈ replace_char old new s -> x ∈ new \/ (x ∈ s /\ x <> old).
Proof.
  unfold replace_char. rewrite list_elem_of_bind. intros (c & Hx & Hc).
  destruct (c =? old)%N eqn:Heq; [by left |].
  apply list_elem_of_singleton in Hx. subst x. right. split; [done |].
  by apply N.eqb_neq.
Qed.

Lemma replace_char_len old new s :
  new <> [] -> len s <= len (replace_char old new s).
Proof.
  intros Hnew. unfold replace_char. induction s as [| c s IH]; [done |].
  change ((c :: s) ≫= _) with
    ((if (c =? old)%N then new else [c]) ++
     (s ≫= fun c => if (c =? old)%N then new else [c])).
  rewrite len_app. unfold len in *. simpl length.
  destruct (c =? old)%N; [| simpl; lia].
  destruct new; [done | simpl; lia].
Qed.

End TextFacts.

(** X23.  [truncate_text] returns a text that fits as it is.  A longer
    text is cut to [max_length - 3] characters and gets three dots, so
    for a limit of at least 3 the result has exactly [max_length]
    characters and starts like the text.  For a limit below 3 the slice
    end is negative and counts from the end of the text: the result is
    then longer than the limit. *)
Theorem truncate_text_length (text : pystr) (max_length : Z) :
  (len text <= max_length -> BotUtils.truncate_text text max_length = text) /\
  (3 <= max_length < len text ->
     len (BotUtils.truncate_text text max_length) = max_length /\
     BotUtils.truncate_text text max_length
       = take (Z.to_nat (max_length - 3)) text ++ py "...") /\
  (max_length < 3 -> max_length < len text ->
     max_length < len (BotUtils.truncate_text text max_length)).
Proof.
  unfold BotUtils.truncate_text, BotUtils.slice_to. split_and!.
  - intros H. by rewrite bool_decide_eq_true_2.
  - intros H. rewrite bool_decide_eq_false_2 by lia.
    rewrite bool_decide_eq_true_2 by lia. split; [| done].
    rewrite len_app, len_take. change (len (py "...")) with 3. lia.
  - intros H1 H2. rewrite bool_decide_eq_false_2 by lia.
    rewrite bool_decide_eq_false_2 by lia.
    rewrite len_app, len_take. change (len (py "...")) with 3. lia.
Qed.

Lemma truncate_text_length_witness :
  len (BotUtils.truncate_text (py "Tajribali Python dasturchi kerak") 10) = 10 /\
  2 < len (BotUtils.truncate_text (py "Kassir") 2).
Proof.
  split.
  - apply (proj1 (proj2 (truncate_text_length
                           (py "Tajribali Python dasturchi kerak") 10))).
    vm_compute. split; [discriminate | reflexivity].
  - apply (proj2 (proj2 (truncate_text_length (py "Kassir") 2)));
      vm_compute; reflexivity.
Defined.

(** X24.  The text [escape_html] returns contains no [<] and no [>]; it
    is at least as long as the text given and equal to it when that
    contains none of [&], [<], [>].  Escaping goes character by
    character: the escape of a concatenation is the concatenation of the
    escapes. *)
Theorem escape_html_removes_angle_brackets (text more : pystr) :
  (60%N ∉ BotUtils.escape_html text) /\
  (62%N ∉ BotUtils.escape_html text) /\
  len text <= len (BotUtils.escape_html text) /\
  (38%N ∉ text -> 60%N ∉ text -> 62%N ∉ text ->
     BotUtils.escape_html text = text) /\
  BotUtils.escape_html (text ++ more)
    = BotUtils.escape_html text ++ BotUtils.escape_html more.
Proof.
  unfold BotUtils.escape_html. split_and!.
  - intros H. apply replace_char_elem in H as [H | [H _]].
    + vm_compute in H. repeat (apply elem_of_cons in H as [H | H]; [discriminate |]).
      by apply elem_of_nil in H.
    + apply replace_char_elem in H as [H | [_ H]]; [| done].
      vm_compute in H. repeat (apply elem_of_cons in H as [H | H]; [discriminate |]).
      by apply elem_of_nil in H.
  - intros H. apply replace_char_elem in H as [H | [_ H]]; [| done].
    vm_compute in H. repeat (apply elem_of_cons in H as [H | H]; [discriminate |]).
    by apply elem_of_nil in H.
  - etransitivity; [| apply replace_char_len; discriminate].
    etransitivity; [| apply replace_char_len; discriminate].
    apply replace_char_len. discriminate.
  - intros H1 H2 H3. rewrite (replace_char_absent 38%N) by done.
    rewrite (replace_char_absent 60%N) by done.
    by rewrite (replace_char_absent 62%N).
  - by rewrite !replace_char_app.
Qed.

Lemma escape_html_removes_angle_brackets_witness :
  BotUtils.escape_html (py "Kassir kerak") = py "Kassir kerak".
Proof.
  apply (proj1 (proj2 (proj2 (proj2
           (escape_html_removes_angle_brackets (py "Kassir kerak") []))))).
  all: vm_compute; intros H;
    repeat (apply elem_of_cons in H as [H | H]; [discriminate |]);
    by apply elem_of_nil in H.
Defined.

Section UsernameFacts.
Import BotUtils.

Lemma word_5_32_spec w :
  word_5_32 w = true <->
  Forall (fun c => is_word c = true) w /\ 5 <= len w <= 32.
Proof.
  unfold word_5_32. rewrite !andb_true_iff, !bool_decide_eq_true.
  rewrite forallb_forall, Forall_forall.
  setoid_rewrite list_elem_of_In. tauto.
Qed.

End UsernameFacts.

(** X25.  [validate_username] accepts exactly an [@] followed by 5 to 32
    characters of [a-z], [A-Z], [0-9] and [_], and the same followed by
    one newline: the [$] of the pattern also matches before a final
    newline.  Every accepted text therefore has 6 to 34 characters. *)
Theorem validate_username_shape (username : pystr) :
  (BotUtils.validate_username username = true <->
   exists w,
     (username = 64%N :: w \/ username = 64%N :: w ++ [10%N]) /\
     Forall (fun c => BotUtils.is_word c = true) w /\ 5 <= len w <= 32) /\
  (BotUtils.validate_username username = true -> 6 <= len username <= 34).
Proof.
  assert (Hshape : BotUtils.validate_username username = true <->
    exists w,
      (username = 64%N :: w \/ username = 64%N :: w ++ [10%N]) /\
      Forall (fun c => BotUtils.is_word c = true) w /\ 5 <= len w <= 32).
  { unfold BotUtils.validate_username. split.
    - destruct username as [| first rest]; [discriminate |].
      rewrite andb_true_iff, orb_true_iff, N.eqb_eq.
      intros [-> [Hw | Hw]].
      + exists rest. split; [by left |]. by apply word_5_32_spec.
      + destruct (rev rest) as [| last body] eqn:Hrev; [discriminate |].
        apply andb_true_iff in Hw as [Hlast Hw]. apply N.eqb_eq in Hlast.
        subst last. exists (rev body). split; [| by apply word_5_32_spec].
        right. f_equal. rewrite <- (rev_involutive rest), Hrev. done.
    - intros (w & [-> | ->] & Hw).
      + apply word_5_32_spec in Hw. rewrite Hw. done.
      + apply word_5_32_spec in Hw.
        rewrite rev_app_distr. cbn [rev app]. rewrite rev_involutive, Hw.
        cbn. by rewrite orb_true_r. }
  split; [exact Hshape |].
  intros (w & [-> | ->] & _ & Hlen)%Hshape.
  - unfold len in *. simpl length. lia.
  - unfold len in *. simpl length. rewrite length_app. simpl. lia.
Qed.

Lemma validate_username_shape_witness :
  6 <= len (py "@kassir_01") <= 34.
Proof.
  apply (proj2 (validate_username_shape (py "@kassir_01"))).
  vm_compute. reflexivity.
Defined.

Section StripFacts.

Lemma lstrip_suffix s : exists p, s = p ++ lstrip s.
Proof.
  induction s as [| c s [p IH]]; [by exists [] |].
  simpl. destruct (isspace c).
  - exists (c :: p). simpl. by rewrite <- IH.
  - by exists [].
Qed.

Lemma lstrip_head s c r : lstrip s = c :: r -> isspace c = false.
Proof.
  induction s as [| c0 s IH]; [discriminate |].
  simpl. destruct (isspace c0) eqn:Hc0; [done |].
  by intros [= <- _].
Qed.

Lemma strip_head s c r : strip s = c :: r -> isspace c = false.
Proof.
  unfold strip. intros H.
  destruct (lstrip_suffix (rev (lstrip s))) as [p Hp].
  set (t := lstrip (rev (lstrip s))) in *.
  assert (Ht : t = rev r ++ [c]).
  { rewrite <- (rev_involutive t), H. done. }
  rewrite Ht in Hp.
  assert (Hs : lstrip s = c :: r ++ rev p).
  { rewrite <- (rev_involutive (lstrip s)), Hp.
    rewrite !rev_app_distr, rev_involutive. done. }
  by apply lstrip_head in Hs.
Qed.

Lemma strip_last s c front : strip s = front ++ [c] -> isspace c = false.
Proof.
  unfold strip. intros H.
  assert (Ht : lstrip (rev (lstrip s)) = c :: rev front).
  { rewrite <- (rev_involutive (lstrip _)), H, rev_app_distr. done. }
  by apply lstrip_head in Ht.
Qed.

Lemma lstrip_elem s x : x ∈ lstrip s -> x ∈ s.
Proof.
  destruct (lstrip_suffix s) as [p Hp]. intros H. rewrite Hp.
  apply elem_of_app. by right.
Qed.

Lemma strip_elem s x : x ∈ strip s -> x ∈ s.
Proof.
  unfold strip. intros H.
  apply list_elem_of_In, in_rev, list_elem_of_In in H.
  apply lstrip_elem in H.
  apply list_elem_of_In, in_rev, list_elem_of_In in H.
  by apply lstrip_elem.
Qed.

End StripFacts.

(** X26.  The text [clean_text] returns contains neither U+202E nor
    U+200B, and it neither begins nor ends with a whitespace
    character. *)
Theorem clean_text_is_trimmed (text : pystr) :
  (8238%N ∉ BotUtils.clean_text text) /\
  (8203%N ∉ BotUtils.clean_text text) /\
  (forall c rest, BotUtils.clean_text text = c :: rest -> isspace c = false) /\
  (forall c front, BotUtils.clean_text text = front ++ [c] -> isspace c = false).
Proof.
  unfold BotUtils.clean_text. cbv zeta. split_and!.
  - intros H%strip_elem.
    apply replace_char_elem in H as [H | [H _]]; [by apply elem_of_nil in H |].
    apply replace_char_elem in H as [H | [_ H]]; [by apply elem_of_nil in H |].
    done.
  - intros H%strip_elem.
    apply replace_char_elem in H as [H | [_ H]]; [by apply elem_of_nil in H |].
    done.
  - intros c rest. apply strip_head.
  - intros c front. apply strip_last.
Qed.

(** ** utils.py: more of the rate limiter *)

Section MoreRateLimiterFacts.
Import RateLimiter.

Lemma recent_len cutoff l : len (recent cutoff l) <= len l.
Proof. unfold recent, len. pose proof (length_filter (fun t => cutoff < t) l). lia. Qed.

Lemma is_rate_limited_bounded now uid max_actions time_window self :
  len (actions_of self uid) <= max_actions ->
  len (actions_of (is_rate_limited now uid max_actions time_window self).2 uid)
    <= max_actions.
Proof.
  intros Hle. rewrite is_rate_limited_spec. cbv zeta. cbn [snd].
  rewrite actions_of_insert.
  pose proof (recent_len (now - timedelta_seconds time_window)
                (actions_of self uid)) as Hrecent.
  case_bool_decide as Hlim; [lia |].
  unfold len in *. rewrite length_app. simpl. lia.
Qed.

End MoreRateLimiterFacts.

(** X27.  The record the limiter keeps for a user stays bounded: a check
    never leaves more than [max_actions] timestamps if there were at most
    that many before, so under the default limit a user's list never
    grows beyond ten, however many checks are made.  Every timestamp left
    after a check lies inside the window of that check or is the check's
    own. *)
Theorem rate_limiter_record_is_bounded
    (now uid max_actions time_window : Z) (self : RateLimiter.t) :
  let r := RateLimiter.is_rate_limited now uid max_actions time_window self in
  (len (RateLimiter.actions_of self uid) <= max_actions ->
     len (RateLimiter.actions_of r.2 uid) <= max_actions) /\
  (forall t, t ∈ RateLimiter.actions_of r.2 uid ->
     now - timedelta_seconds time_window < t \/ t = now) /\
  (forall times,
     len (RateLimiter.actions_of self uid) <= 10 ->
     len (RateLimiter.actions_of (RateLimiter.checks uid times self).2 uid)
       <= 10).
Proof.
  cbv zeta. split_and!.
  - apply is_rate_limited_bounded.
  - intros t. rewrite is_rate_limited_spec. cbv zeta. cbn [snd].
    rewrite actions_of_insert. unfold RateLimiter.recent.
    case_bool_decide.
    + rewrite list_elem_of_filter. tauto.
    + rewrite elem_of_app, list_elem_of_filter, list_elem_of_singleton. tauto.
  - intros times. revert self.
    induction times as [| t times IH]; intros self Hle; [done |].
    cbn [RateLimiter.checks].
    pose proof (is_rate_limited_bounded t uid 10 60 self Hle) as Hstep.
    destruct (RateLimiter.is_rate_limited t uid 10 60 self) as [b self1].
    specialize (IH self1 Hstep).
    destruct (RateLimiter.checks uid times self1) as [rs self2]. done.
Qed.

Lemma rate_limiter_record_is_bounded_witness :
  len (RateLimiter.actions_of
         (RateLimiter.checks 42
            (timedelta_seconds <$> [1; 2; 3; 4; 5; 6; 7; 8; 9; 10; 11; 12; 13])
            RateLimiter.init).2 42) <= 10.
Proof.
  apply (proj2 (proj2 (rate_limiter_record_is_bounded 0 42 10 60
                         RateLimiter.init))).
  vm_compute. discriminate.
Defined.

(** X28.  [clear_user_actions] forgets one user and nobody else: the
    next check of that user finds no timestamps, so it is allowed
    whenever [max_actions] is positive and records just its own time.
    With a limit of zero or less every check is limited and nothing is
    ever recorded. *)
Theorem clear_user_actions_resets_user
    (now uid max_actions time_window : Z) (self : RateLimiter.t) :
  let cleared := RateLimiter.clear_user_actions uid self in
  RateLimiter.actions_of cleared uid = [] /\
  (forall other, other <> uid ->
     RateLimiter.user_actions cleared !! other
       = RateLimiter.user_actions self !! other) /\
  (0 < max_actions ->
     let r := RateLimiter.is_rate_limited now uid max_actions time_window cleared in
     r.1 = false /\ RateLimiter.actions_of r.2 uid = [now]) /\
  (max_actions <= 0 ->
     let r := RateLimiter.is_rate_limited now uid max_actions time_window self in
     r.1 = true /\
     RateLimiter.actions_of r.2 uid
       = filter (fun t => now - timedelta_seconds time_window < t)
                (RateLimiter.actions_of self uid)).
Proof.
  cbv zeta.
  assert (Hcleared : RateLimiter.actions_of
                       (RateLimiter.clear_user_actions uid self) uid = []).
  { unfold RateLimiter.actions_of, RateLimiter.clear_user_actions. cbn.
    by rewrite lookup_delete_eq. }
  split_and!.
  - done.
  - intros other Hne. unfold RateLimiter.clear_user_actions. cbn.
    by rewrite lookup_delete_ne.
  - intros Hpos. rewrite is_rate_limited_spec. cbv zeta. cbn [fst snd].
    rewrite Hcleared, actions_of_insert. unfold RateLimiter.recent.
    rewrite filter_nil. unfold len. cbn [length].
    rewrite bool_decide_eq_false_2 by lia. done.
  - intros Hneg. rewrite is_rate_limited_spec. cbv zeta. cbn [fst snd].
    rewrite actions_of_insert.
    pose proof (recent_len (now - timedelta_seconds time_window)
                  (RateLimiter.actions_of self uid)) as Hlen.
    rewrite bool_decide_eq_true_2 by (unfold len in *; lia).
    done.
Qed.

Lemma clear_user_actions_resets_user_witness :
  (RateLimiter.is_rate_limited 0 42 10 60
     (RateLimiter.clear_user_actions 42 RateLimiter.init)).1 = false.
Proof.
  apply (proj1 (proj2 (proj2 (clear_user_actions_resets_user 0 42 10 60
                                RateLimiter.init)))).
  reflexivity.
Defined.

(** ** database.py: per-user statistics *)

Section StatisticsFacts.
Import Statistics.

Lemma size_filter_insert {A} (P : Z * A -> Prop) `{!forall x, Decision (P x)}
    (m : gmap Z A) i x :
  m !! i = None ->
  size (filter P (<[i := x]> m))
    = ((if decide (P (i, x)) then 1 else 0) + size (filter P m))%nat.
Proof.
  intros Hnone. destruct (decide (P (i, x))) as [HP | HP].
  - rewrite map_filter_insert_True by done.
    rewrite map_size_insert_None; [done |].
    apply map_lookup_filter_None. by left.
  - rewrite map_filter_insert_False by done. by rewrite delete_id.
Qed.

(** Three counts that split a fourth. *)
Lemma size_filter_three {A} (U P1 P2 P3 : Z * A -> Prop)
    `{!forall x, Decision (U x)} `{!forall x, Decision (P1 x)}
    `{!forall x, Decision (P2 x)} `{!forall x, Decision (P3 x)}
    (m : gmap Z A) :
  (forall x, P1 x -> U x) -> (forall x, P2 x -> U x) -> (forall x, P3 x -> U x) ->
  (forall x, P1 x -> ~ P2 x) -> (forall x, P1 x -> ~ P3 x) ->
  (forall x, P2 x -> ~ P3 x) ->
  (size (filter P1 m) + size (filter P2 m) + size (filter P3 m)
     <= size (filter U m))%nat /\
  ((forall i x, m !! i = Some x -> U (i, x) -> P1 (i, x) \/ P2 (i, x) \/ P3 (i, x)) ->
   (size (filter P1 m) + size (filter P2 m) + size (filter P3 m)
      = size (filter U m))%nat).
Proof.
  intros Hsub1 Hsub2 Hsub3 Hx12 Hx13 Hx23.
  induction m as [| i x m Hnone IH] using map_ind.
  - rewrite !map_filter_empty, !map_size_empty. split; [lia | done].
  - destruct IH as [IHle IHeq].
    rewrite !size_filter_insert by done.
    split.
    + destruct (decide (P1 (i, x))) as [p1 |], (decide (P2 (i, x))) as [p2 |],
        (decide (P3 (i, x))) as [p3 |], (decide (U (i, x))) as [u |];
        try lia; exfalso; naive_solver.
    + intros Hcover.
      assert (Heq : (size (filter P1 m) + size (filter P2 m) + size (filter P3 m)
                     = size (filter U m))%nat).
      { apply IHeq. intros j y Hj. apply Hcover.
        rewrite lookup_insert_ne; [done |]. intros ->. congruence. }
      specialize (Hcover i x (lookup_insert_eq _ _ _)).
      destruct (decide (P1 (i, x))) as [p1 |], (decide (P2 (i, x))) as [p2 |],
        (decide (P3 (i, x))) as [p3 |], (decide (U (i, x))) as [u |];
        try lia; exfalso; naive_solver.
Qed.

End StatisticsFacts.

(** X29.  In the statistics of a user the approved, pending and rejected
    counts never add up to more than the total, and they add up to the
    total exactly when each of the user's listings has one of these three
    statuses; that is the case in every world the bot reaches from one
    where it holds. *)
Theorem user_stats_add_up
    (deliver : Recipient -> Text -> option pystr) (lower : pystr -> pystr)
    (telegram_id : Z) (d : Db) :
  let s := Statistics.get_user_stats telegram_id d in
  Statistics.approved_ads s + Statistics.pending_ads s + Statistics.rejected_ads s
    <= Statistics.total_ads s /\
  ((forall i ad, ads d !! i = Some ad -> user_id ad = telegram_id ->
      status ad ∈ [py "pending"; py "approved"; py "rejected"]) ->
   Statistics.approved_ads s + Statistics.pending_ads s + Statistics.rejected_ads s
     = Statistics.total_ads s) /\
  (forall ops w,
     fresh_ids w -> legal_statuses w ->
     let s' := Statistics.get_user_stats telegram_id
                 (db (run deliver lower ops w)) in
     Statistics.approved_ads s' + Statistics.pending_ads s' +
     Statistics.rejected_ads s' = Statistics.total_ads s').
Proof.
  assert (Hsplit : forall d0,
    let s := Statistics.get_user_stats telegram_id d0 in
    Statistics.approved_ads s + Statistics.pending_ads s +
    Statistics.rejected_ads s <= Statistics.total_ads s /\
    ((forall i ad, ads d0 !! i = Some ad -> user_id ad = telegram_id ->
        status ad ∈ [py "pending"; py "approved"; py "rejected"]) ->
     Statistics.approved_ads s + Statistics.pending_ads s +
     Statistics.rejected_ads s = Statistics.total_ads s)).
  { intros d0. cbv zeta. unfold Statistics.get_user_stats, Statistics.count_ads.
    cbn [Statistics.total_ads Statistics.approved_ads Statistics.pending_ads
         Statistics.rejected_ads].
    destruct (size_filter_three
                (fun kv : Z * Ad => user_id kv.2 = telegram_id)
                (fun kv : Z * Ad => user_id kv.2 = telegram_id /\
                                    status kv.2 = py "approved")
                (fun kv : Z * Ad => user_id kv.2 = telegram_id /\
                                    status kv.2 = py "pending")
                (fun kv : Z * Ad => user_id kv.2 = telegram_id /\
                                    status kv.2 = py "rejected")
                (ads d0)) as [Hle Heq].
    - tauto.
    - tauto.
    - tauto.
    - intros x [_ Ha] [_ Hb]. rewrite Ha in Hb. discriminate.
    - intros x [_ Ha] [_ Hb]. rewrite Ha in Hb. discriminate.
    - intros x [_ Ha] [_ Hb]. rewrite Ha in Hb. discriminate.
    - split; [lia |]. intros Hlegal. rewrite <- Heq; [lia |].
      intros i ad Hi Hu. cbn [snd] in *.
      specialize (Hlegal i ad Hi Hu).
      apply elem_of_cons in Hlegal as [-> | Hlegal]; [tauto |].
      apply elem_of_cons in Hlegal as [-> | Hlegal]; [tauto |].
      apply elem_of_cons in Hlegal as [-> | Hlegal]; [tauto |].
      by apply elem_of_nil in Hlegal. }
  cbv zeta. split_and!.
  - apply Hsplit.
  - apply Hsplit.
  - intros ops. induction ops as [| op ops IH]; intros w Hfresh Hlegal.
    + apply Hsplit. intros i ad Hi _. by eapply Hlegal.
    + change (run deliver lower (op :: ops) w)
        with (run deliver lower ops (step deliver lower op w)).
      destruct (step_keeps_legal deliver lower op w Hfresh Hlegal).
      by apply IH.
Qed.

Lemma user_stats_add_up_witness :
  let s := Statistics.get_user_stats 300 (db Demo.busy_world) in
  Statistics.approved_ads s + Statistics.pending_ads s + Statistics.rejected_ads s
    = Statistics.total_ads s.
Proof.
  apply (proj1 (proj2 (user_stats_add_up Demo.delivered Demo.ascii_lower 300
                         (db Demo.busy_world)))).
  intros i ad Hi _. cbn [Demo.busy_world db ads] in Hi.
  apply lookup_insert_Some in Hi as [[_ <-] | [_ Hi]]; [set_solver |].
  apply lookup_insert_Some in Hi as [[_ <-] | [_ Hi]]; [set_solver |].
  apply lookup_singleton_Some in Hi as [_ <-]. set_solver.
Defined.
